(** * Extent tracking and axis relabelling in the ECTL_RD / OPDI plot utilities

    A shallow embedding of [ECTL_RD/ectl_plots_utilities.py] and
    [OPDI/opdi_plots_utilities.py]: the bookkeeping that [plot_route] and
    [plot_trajectory] keep on the axes they draw into ([ax._xmin], [ax._xmax],
    [ax._ymin], [ax._ymax]), the padded limits derived from it, the
    longitude/latitude tick labels, and the input guards of [plot_airspace]
    and [plot_flight_trajectory_events].

    Numbers.  Python floats are modelled by rationals [Q]: every finite
    float is a rational, comparisons are exact, and [+], [-], [*], [/] are
    the exact operations (rounding, NaN and the infinities are outside the
    model).  Two rationals denote the same number when they are [Qeq]
    ([==]); that is the equality of Python's [==] on floats.  The module
    [Binary64] repeats the two arithmetic fragments on IEEE 754 doubles, to
    evaluate concrete inputs as the interpreter does.

    Collaborators.  geopandas/shapely (geometry, reprojection,
    [total_bounds]), matplotlib (rendering, autoscaling) and pyproj (the
    EPSG:3857 to EPSG:4326 transformer) are not part of the repository; they
    enter as variables of the section [Plots].  An axes object stores the
    limits, ticks and labels it is given (what matplotlib itself does with
    them, such as widening two identical limits, is not modelled). *)

From Stdlib Require Import QArith Qminmax Qabs Lia Lqa ZArith.
From Stdlib Require Import List String Ascii DecimalString Permutation Sorted.
From Stdlib Require Import Floats.
Import ListNotations.

Local Open Scope Q_scope.

(** ** The Python runtime fragments the code relies on *)

Module Py.

(** The exceptions that the modelled statements can raise: the
    interpreter's own [TypeError] and [AttributeError], and the
    [ValueError] that [plot_airspace] raises with its message. *)
Inductive exn : Type :=
| TypeError
| AttributeError
| ValueError (msg : string).

(** A statement sequence either completes with a value or raises. *)
Inductive result (A : Type) : Type :=
| Ok (a : A)
| Raise (e : exn).
Arguments Ok {A} a.
Arguments Raise {A} e.

Definition bind {A B : Type} (c : result A) (k : A -> result B) : result B :=
  match c with
  | Ok a => k a
  | Raise e => Raise e
  end.

Definition raises {A : Type} (c : result A) : bool :=
  match c with
  | Ok _ => false
  | Raise _ => true
  end.

(** Builtin [min(a, b)] on two floats: the running minimum starts at [a]
    and is replaced by [b] only when [b < a]. *)
Definition min (a b : Q) : Q :=
  match b ?= a with
  | Lt => b
  | _ => a
  end.

(** Builtin [max(a, b)]: [a], replaced by [b] only when [b > a]. *)
Definition max (a b : Q) : Q :=
  match b ?= a with
  | Gt => b
  | _ => a
  end.

(** [a - b] and [a + b] where an operand may be [None]: arithmetic on
    [None] raises [TypeError]. *)
Definition binop (f : Q -> Q -> Q) (a b : option Q) : result Q :=
  match a, b with
  | Some x, Some y => Ok (f x y)
  | _, _ => Raise TypeError
  end.

Definition sub := binop Qminus.
Definition add := binop Qplus.

(** Truth value of a [str]: only the empty string is falsy. *)
Definition truthy (s : string) : bool :=
  match s with
  | EmptyString => false
  | String _ _ => true
  end.

(** Decimal rendering of a natural number, as [str(n)] gives it. *)
Definition str_of_N (n : N) : string := NilZero.string_of_uint (N.to_uint n).

(** Nearest integer, ties to the even one. *)
Definition round_half_even (q : Q) : Z :=
  let n := Qnum q in
  let d := Zpos (Qden q) in
  let fl := (n / d)%Z in
  match (2 * (n mod d) ?= d)%Z with
  | Lt => fl
  | Gt => (fl + 1)%Z
  | Eq => if Z.even fl then fl else (fl + 1)%Z
  end.

(** The format specification [.1f]: sign, integer digits, a point and one
    fractional digit, the value rounded to the nearest tenth. *)
Definition format_1f (x : Q) : string :=
  let t := round_half_even (Qabs x * 10) in
  ((if (Qnum x <? 0)%Z then "-" else EmptyString)
     ++ str_of_N (Z.to_N (t / 10)) ++ "." ++ str_of_N (Z.to_N (t mod 10)))%string.

End Py.

Notation "x <- c ;; k" := (Py.bind c (fun x => k))
  (at level 61, c at next level, right associativity).

Import Py(result, Ok, Raise).

(** ** numpy *)

Module Np.

(** [np.linspace(start, stop, num)] with the default [endpoint=True]:
    [num] samples [start + i * step], [step = (stop - start) / (num - 1)],
    the last one set to [stop] itself. *)
Definition linspace (start stop : Q) (num : nat) : list Q :=
  match num with
  | O => []
  | S O => [start]
  | S div =>
      let step := (stop - start) / inject_Z (Z.of_nat div) in
      map (fun i => inject_Z (Z.of_nat i) * step + start) (seq 0 div) ++ [stop]
  end.

End Np.

(** ** Data *)

(** [GeoDataFrame.total_bounds]: the array [(minx, miny, maxx, maxy)]. *)
Record Bounds : Type := mkBounds {
  minx : Q;
  miny : Q;
  maxx : Q;
  maxy : Q
}.

(** The four attributes that [plot_route] and [plot_trajectory] attach to
    the axes; each is [None] until the first feature is drawn. *)
Record ExtentAttrs : Type := mkExtent {
  _xmin : option Q;
  _xmax : option Q;
  _ymin : option Q;
  _ymax : option Q
}.

(** A matplotlib axes, reduced to what the functions read and write:
    the extent attributes ([None] here when they were never attached), the
    view limits, and the fixed tick positions and labels (empty while the
    automatic locator is in charge). *)
Record Axes : Type := mkAxes {
  attrs : option ExtentAttrs;
  xlim : Q * Q;
  ylim : Q * Q;
  xticks : list Q;
  yticks : list Q;
  xticklabels : list string;
  yticklabels : list string
}.

(** [plt.subplots(...)]: a fresh axes with the default limits [(0, 1)]. *)
Definition subplots : Axes :=
  mkAxes None (0, 1) (0, 1) [] [] [] [].

Definition set_attrs (ax : Axes) (e : ExtentAttrs) : Axes :=
  mkAxes (Some e) (xlim ax) (ylim ax) (xticks ax) (yticks ax)
         (xticklabels ax) (yticklabels ax).

Definition set_xlim (ax : Axes) (lo hi : Q) : Axes :=
  mkAxes (attrs ax) (lo, hi) (ylim ax) (xticks ax) (yticks ax)
         (xticklabels ax) (yticklabels ax).

Definition set_ylim (ax : Axes) (lo hi : Q) : Axes :=
  mkAxes (attrs ax) (xlim ax) (lo, hi) (xticks ax) (yticks ax)
         (xticklabels ax) (yticklabels ax).

Definition set_xticks (ax : Axes) (t : list Q) : Axes :=
  mkAxes (attrs ax) (xlim ax) (ylim ax) t (yticks ax)
         (xticklabels ax) (yticklabels ax).

Definition set_yticks (ax : Axes) (t : list Q) : Axes :=
  mkAxes (attrs ax) (xlim ax) (ylim ax) (xticks ax) t
         (xticklabels ax) (yticklabels ax).

Definition set_xticklabels (ax : Axes) (l : list string) : Axes :=
  mkAxes (attrs ax) (xlim ax) (ylim ax) (xticks ax) (yticks ax)
         l (yticklabels ax).

Definition set_yticklabels (ax : Axes) (l : list string) : Axes :=
  mkAxes (attrs ax) (xlim ax) (ylim ax) (xticks ax) (yticks ax)
         (xticklabels ax) l.

(** The state in which the attributes are initialised
    ([ax._xmin, ax._xmax, ax._ymin, ax._ymax = None, None, None, None]). *)
Definition no_extent : ExtentAttrs := mkExtent None None None None.

(** The degree sign, U+00B0, as its UTF-8 bytes. *)
Definition degree : string :=
  String (ascii_of_nat 194) (String (ascii_of_nat 176) EmptyString).

(** ** The extent bookkeeping shared by [plot_route] and [plot_trajectory] *)

(** "Update bounds":
<<
    ax._xmin = xmin_f if ax._xmin is None else min(ax._xmin, xmin_f)
    ax._xmax = xmax_f if ax._xmax is None else max(ax._xmax, xmax_f)
    ax._ymin = ymin_f if ax._ymin is None else min(ax._ymin, ymin_f)
    ax._ymax = ymax_f if ax._ymax is None else max(ax._ymax, ymax_f)
>> *)
Definition update_bounds (st : ExtentAttrs) (b : Bounds) : ExtentAttrs :=
  {| _xmin := match _xmin st with
              | None => Some (minx b)
              | Some v => Some (Py.min v (minx b))
              end;
     _xmax := match _xmax st with
              | None => Some (maxx b)
              | Some v => Some (Py.max v (maxx b))
              end;
     _ymin := match _ymin st with
              | None => Some (miny b)
              | Some v => Some (Py.min v (miny b))
              end;
     _ymax := match _ymax st with
              | None => Some (maxy b)
              | Some v => Some (Py.max v (maxy b))
              end |}.

(** "Update limits": with the literal [pad] (0.2 or 0.3 in the source),
<<
    x_pad = (ax._xmax - ax._xmin) * pad
    y_pad = (ax._ymax - ax._ymin) * pad
    ax.set_xlim(ax._xmin - x_pad, ax._xmax + x_pad)
    ax.set_ylim(ax._ymin - y_pad, ax._ymax + y_pad)
>>
    The result is the pair of argument pairs handed to [set_xlim] and
    [set_ylim]. *)
Definition padded_limits (pad : Q) (st : ExtentAttrs) : result ((Q * Q) * (Q * Q)) :=
  dx <- Py.sub (_xmax st) (_xmin st) ;;
  let x_pad := dx * pad in
  dy <- Py.sub (_ymax st) (_ymin st) ;;
  let y_pad := dy * pad in
  xlo <- Py.sub (_xmin st) (Some x_pad) ;;
  xhi <- Py.add (_xmax st) (Some x_pad) ;;
  ylo <- Py.sub (_ymin st) (Some y_pad) ;;
  yhi <- Py.add (_ymax st) (Some y_pad) ;;
  Ok ((xlo, xhi), (ylo, yhi)).

Definition apply_limits (ax : Axes) (l : (Q * Q) * (Q * Q)) : Axes :=
  set_ylim (set_xlim ax (fst (fst l)) (snd (fst l))) (fst (snd l)) (snd (snd l)).

(** ** Data frames *)

(** A row of the airspace, route and trajectory frames, with the columns
    the functions read. *)
Record Row : Type := mkRow {
  Ident : string;            (* "Airspace ID" *)
  Sequence_Number : Z;       (* "Sequence Number" *)
  Latitude : Q;              (* "Latitude" *)
  Longitude : Q              (* "Longitude" *)
}.

(** A row of the OPDI flight-event frame. *)
Record EventRow : Type := mkEventRow {
  flight_id : string;
  event_time : Z;
  latitude : Q;
  longitude : Q;
  altitude : Q
}.

Fixpoint insert_by {A : Type} (key : A -> Z) (x : A) (l : list A) : list A :=
  match l with
  | [] => [x]
  | y :: l' => if (key x <=? key y)%Z then x :: l else y :: insert_by key x l'
  end.

(** [df.sort_values(column)] on an integer-valued column: the rows in
    ascending order of the key.  (pandas leaves the order of rows with equal
    keys open; here they keep their relative order.) *)
Definition sort_values {A : Type} (key : A -> Z) (df : list A) : list A :=
  fold_right (insert_by key) [] df.

(** What a call leaves behind: the lines it printed and either the value it
    returned or the exception it raised. *)
Record Outcome (A : Type) : Type := mkOutcome {
  stdout : list string;
  value : result A
}.
Arguments mkOutcome {A} stdout value.
Arguments stdout {A} o.
Arguments value {A} o.

(** "Filter if an Airspace ID string was provided":
<<
    if airspace_str:
        subset = df_airspace[df_airspace["Airspace ID"] == airspace_str].copy()
    else:
        subset = df_airspace.copy()
>> *)
Definition airspace_subset (df_airspace : list Row) (airspace_str : string) : list Row :=
  if Py.truthy airspace_str
  then filter (fun r => String.eqb (Ident r) airspace_str) df_airspace
  else df_airspace.

(** [df_events[df_events["flight_id"] == flight_id].copy()] *)
Definition flight_events (df_events : list EventRow) (flight : string) : list EventRow :=
  filter (fun r => String.eqb (flight_id r) flight) df_events.

(** ** The plotting functions *)

Section Plots.

(** [pyproj.Transformer.from_crs("EPSG:3857", "EPSG:4326",
    always_xy=True).transform]. *)
Variable transform : Q -> Q -> Q * Q.

(** The geometry built from a list of [(lon, lat)] vertices, reprojected
    with [to_crs(epsg=3857)], and its [total_bounds]. *)
Variable total_bounds_3857 : list (Q * Q) -> Bounds.

(** The view limits [(xlim, ylim)] of an axes after [GeoDataFrame.plot]
    has drawn a geometry into it (matplotlib's autoscaling). *)
Variable autoscale_view : (Q * Q) * (Q * Q) -> list (Q * Q) -> (Q * Q) * (Q * Q).

(** "Convert to lat/lon ticks":
<<
  xlim, ylim = ax.get_xlim(), ax.get_ylim()
  lon_min, lat_min = transformer.transform(xlim[0], ylim[0])
  lon_max, lat_max = transformer.transform(xlim[1], ylim[1])
  ax.set_xticks(np.linspace(xlim[0], xlim[1], 6))
  ax.set_yticks(np.linspace(ylim[0], ylim[1], 6))
  ax.set_xticklabels([f"{lon:.1f}°" for lon in np.linspace(lon_min, lon_max, 6)])
  ax.set_yticklabels([f"{lat:.1f}°" for lat in np.linspace(lat_min, lat_max, 6)])
>> *)
Definition latlon_ticks (ax : Axes) : Axes :=
  let xl := xlim ax in
  let yl := ylim ax in
  let '(lon_min, lat_min) := transform (fst xl) (fst yl) in
  let '(lon_max, lat_max) := transform (snd xl) (snd yl) in
  let ax := set_xticks ax (Np.linspace (fst xl) (snd xl) 6) in
  let ax := set_yticks ax (Np.linspace (fst yl) (snd yl) 6) in
  let ax := set_xticklabels ax
              (map (fun lon => (Py.format_1f lon ++ degree)%string)
                   (Np.linspace lon_min lon_max 6)) in
  set_yticklabels ax
    (map (fun lat => (Py.format_1f lat ++ degree)%string)
         (Np.linspace lat_min lat_max 6)).

(** Reading [ax._xmin] and its three siblings: an axes that never got the
    attributes has none to read. *)
Definition get_attrs (ax : Axes) : result ExtentAttrs :=
  match attrs ax with
  | Some st => Ok st
  | None => Raise Py.AttributeError
  end.

(** [if fig is None or ax is None:] a new axes whose extent attributes
    are initialised to [None]; otherwise the axes handed in. *)
Definition axes_or_new (ax : option Axes) : Axes :=
  match ax with
  | None => set_attrs subplots no_extent
  | Some a => a
  end.

(** [LineString(zip(df["Longitude"], df["Latitude"]))] *)
Definition lon_lat (df : list Row) : list (Q * Q) :=
  map (fun r => (Longitude r, Latitude r)) df.

(** [plot_route(df_route, fig, ax, route_id)]; [fig] and [ax] travel
    together.  Styling, the text label and the basemap tiles do not touch
    the modelled fields. *)
Definition plot_route (df_route : list Row) (ax : option Axes) : result Axes :=
  let ax := axes_or_new ax in
  let df_route := sort_values Sequence_Number df_route in
  let line := lon_lat df_route in
  (* --- Update bounds *)
  let b := total_bounds_3857 line in
  st <- get_attrs ax ;;
  let st := update_bounds st b in
  let ax := set_attrs ax st in
  (* --- Always update limits first *)
  l <- padded_limits 0.2 st ;;
  let ax := apply_limits ax l in
  (* --- Adjust limits with padding *)
  l <- padded_limits 0.2 st ;;
  let ax := apply_limits ax l in
  (* --- Convert to lat/lon ticks *)
  Ok (latlon_ticks ax).

(** [plot_trajectory(df_points, ectrl_id, label, fig, ax, cmap, color)] *)
Definition plot_trajectory (df_points : list Row) (ax : option Axes) : result Axes :=
  let ax := axes_or_new ax in
  let df_points := sort_values Sequence_Number df_points in
  let line := lon_lat df_points in
  (* --- Update bounds dynamically *)
  let b := total_bounds_3857 line in
  st <- get_attrs ax ;;
  let st := update_bounds st b in
  let ax := set_attrs ax st in
  (* --- Update limits and basemap every time *)
  l <- padded_limits 0.3 st ;;
  let ax := apply_limits ax l in
  (* --- Convert axes ticks to lat/lon labels *)
  Ok (latlon_ticks ax).

Definition limits_differ (l : Q * Q) (lo hi : Q) : bool :=
  negb (Qeq_bool (fst l) lo && Qeq_bool (snd l) hi).

(** [plot_airspace(df_airspace, airspace_str, fig, ax)] *)
Definition plot_airspace (df_airspace : list Row) (airspace_str : string)
           (ax : option Axes) : result Axes :=
  let subset := airspace_subset df_airspace airspace_str in
  let subset := sort_values Sequence_Number subset in
  (* Need at least 3 points to form a polygon *)
  if (List.length subset <? 3)%nat then
    Raise (Py.ValueError
             ("Not enough points to build a polygon for '" ++ airspace_str
                ++ "' (need >=3, got "
                ++ Py.str_of_N (N.of_nat (List.length subset)) ++ ")"))
  else
    let polygon := lon_lat subset in
    let ax := match ax with None => subplots | Some a => a end in
    (* gdf_web.plot(ax=ax, ...) *)
    let v := autoscale_view (xlim ax, ylim ax) polygon in
    let ax := set_ylim (set_xlim ax (fst (fst v)) (snd (fst v)))
                       (fst (snd v)) (snd (snd v)) in
    let b := total_bounds_3857 polygon in
    let curr_xlim := xlim ax in
    let curr_ylim := ylim ax in
    let '(xmin, ymin, xmax, ymax) :=
      if limits_differ curr_xlim 0 1 || limits_differ curr_ylim 0 1
      then (Py.min (fst curr_xlim) (minx b), Py.min (fst curr_ylim) (miny b),
            Py.max (snd curr_xlim) (maxx b), Py.max (snd curr_ylim) (maxy b))
      else (minx b, miny b, maxx b, maxy b) in
    (* Add padding (20%) *)
    let x_pad := (xmax - xmin) * 0.2 in
    let y_pad := (ymax - ymin) * 0.2 in
    let ax := set_xlim ax (xmin - x_pad) (xmax + x_pad) in
    let ax := set_ylim ax (ymin - y_pad) (ymax + y_pad) in
    Ok (latlon_ticks ax).

(** [plot_flight_trajectory_events(df_events, flight_id)]; the value is
    the map axes of the returned figure ([None] for a bare [return]). *)
Definition plot_flight_trajectory_events (df_events : list EventRow)
           (flight : string) : Outcome (option Axes) :=
  let df := flight_events df_events flight in
  match df with
  | [] =>
      mkOutcome [("No data found for flight_id " ++ flight)%string] (Ok None)
  | _ :: _ =>
      let df := sort_values event_time df in
      let line := map (fun r => (longitude r, latitude r)) df in
      let ax_map := subplots in
      (* --- Padding and limits *)
      let b := total_bounds_3857 line in
      let x_pad := (maxx b - minx b) * 0.2 in
      let y_pad := (maxy b - miny b) * 0.2 in
      let ax_map := set_xlim ax_map (minx b - x_pad) (maxx b + x_pad) in
      let ax_map := set_ylim ax_map (miny b - y_pad) (maxy b + y_pad) in
      (* --- Convert ticks to lat/lon labels *)
      mkOutcome [] (Ok (Some (latlon_ticks ax_map)))
  end.

(** Overlaying features one after the other on one axes, starting from
    a new one: [fig, ax = plot_route(df1)], then
    [plot_route(df2, fig, ax)], and so on. *)
Fixpoint overlay (plot : list Row -> option Axes -> result Axes)
         (dfs : list (list Row)) (ax : option Axes) : result (option Axes) :=
  match dfs with
  | [] => Ok ax
  | df :: rest =>
      ax' <- plot df ax ;;
      overlay plot rest (Some ax')
  end.

End Plots.

(** ** The same bookkeeping in double precision *)

Module Binary64.

(** [min(a, b)] and [max(a, b)] on doubles: [b] replaces [a] only when
    [b < a], respectively [b > a]. *)
Definition min (a b : float) : float := if (b <? a)%float then b else a.
Definition max (a b : float) : float := if (a <? b)%float then b else a.

Record Bounds : Type := mkBounds {
  minx : float;
  miny : float;
  maxx : float;
  maxy : float
}.

Record ExtentAttrs : Type := mkExtent {
  _xmin : option float;
  _xmax : option float;
  _ymin : option float;
  _ymax : option float
}.

Definition no_extent : ExtentAttrs := mkExtent None None None None.

(** "Update bounds", line for line as [update_bounds] above. *)
Definition update_bounds (st : ExtentAttrs) (b : Bounds) : ExtentAttrs :=
  {| _xmin := match _xmin st with
              | None => Some (minx b)
              | Some v => Some (min v (minx b))
              end;
     _xmax := match _xmax st with
              | None => Some (maxx b)
              | Some v => Some (max v (maxx b))
              end;
     _ymin := match _ymin st with
              | None => Some (miny b)
              | Some v => Some (min v (miny b))
              end;
     _ymax := match _ymax st with
              | None => Some (maxy b)
              | Some v => Some (max v (maxy b))
              end |}.

(** "Update limits" on a state whose attributes all hold a number
    ([None] otherwise, where Python raises). *)
Definition padded_limits (pad : float) (st : ExtentAttrs) :
  option ((float * float) * (float * float)) :=
  match _xmin st, _xmax st, _ymin st, _ymax st with
  | Some xmin, Some xmax, Some ymin, Some ymax =>
      let x_pad := ((xmax - xmin) * pad)%float in
      let y_pad := ((ymax - ymin) * pad)%float in
      Some ((xmin - x_pad, xmax + x_pad), (ymin - y_pad, ymax + y_pad))%float
  | _, _, _, _ => None
  end.

(** The literal [0.2]: the double nearest to one fifth. *)
Definition lit_0_2 : float := 0x1.999999999999ap-3%float.

(** The boxes [{x:[0,10], y:[0,5]}] and [{x:[5,15], y:[-2,3]}]. *)
Definition box_a : Bounds := mkBounds 0 0 10 5.
Definition box_b : Bounds := mkBounds 5 (-2) 15 3.

(** The doubles that print as [-3.4000000000000004], [-3.4], [-1.4] and
    [6.4]. *)
Definition below_m3_4 : float := (-0x1.b333333333334p+1)%float.
Definition lit_m3_4 : float := (-0x1.b333333333333p+1)%float.
Definition lit_m1_4 : float := (-0x1.6666666666666p+0)%float.
Definition lit_6_4 : float := 0x1.999999999999ap+2%float.

End Binary64.

(** ** Vocabulary of the specification *)

(** The extent attributes once every one of them holds a number. *)
Definition attrs_of (e : Bounds) : ExtentAttrs :=
  mkExtent (Some (minx e)) (Some (maxx e)) (Some (miny e)) (Some (maxy e)).

(** The accumulated bounding box held by the attributes, if any. *)
Definition extent (st : ExtentAttrs) : option Bounds :=
  match _xmin st, _ymin st, _xmax st, _ymax st with
  | Some x0, Some y0, Some x1, Some y1 => Some (mkBounds x0 y0 x1 y1)
  | _, _, _, _ => None
  end.

(** A box is non-degenerate when its minima do not exceed its maxima. *)
Definition nondegenerate (b : Bounds) : Prop :=
  minx b <= maxx b /\ miny b <= maxy b.

(** [inside b e]: the box [b] lies within [e]. *)
Definition inside (b e : Bounds) : Prop :=
  minx e <= minx b /\ maxx b <= maxx e /\ miny e <= miny b /\ maxy b <= maxy e.

(** The same box, number for number. *)
Definition Bounds_eq (a b : Bounds) : Prop :=
  minx a == minx b /\ miny a == miny b /\ maxx a == maxx b /\ maxy a == maxy b.

Definition opt_eq (a b : option Q) : Prop :=
  match a, b with
  | Some x, Some y => x == y
  | None, None => True
  | _, _ => False
  end.

(** The same attribute values, number for number. *)
Definition attrs_eq (s t : ExtentAttrs) : Prop :=
  opt_eq (_xmin s) (_xmin t) /\ opt_eq (_xmax s) (_xmax t) /\
  opt_eq (_ymin s) (_ymin t) /\ opt_eq (_ymax s) (_ymax t).

(** The invariant of the attributes: either no feature was merged yet, or
    the four numbers form a non-degenerate box. *)
Definition extent_ok (st : ExtentAttrs) : Prop :=
  st = no_extent \/ exists e, st = attrs_of e /\ nondegenerate e.

(** The specification's [merge]: the feature box itself on an empty state,
    the pointwise minimum and maximum otherwise. *)
Definition merge (state : option Bounds) (feature_box : Bounds) : Bounds :=
  match state with
  | None => feature_box
  | Some s =>
      {| minx := Qmin (minx s) (minx feature_box);
         miny := Qmin (miny s) (miny feature_box);
         maxx := Qmax (maxx s) (maxx feature_box);
         maxy := Qmax (maxy s) (maxy feature_box) |}
  end.

(** The specification's view window: the extent grown on each side of an
    axis by [padding_fraction * (max - min)] of that axis. *)
Definition expand (padding_fraction : Q) (e : Bounds) : Bounds :=
  {| minx := minx e - padding_fraction * (maxx e - minx e);
     miny := miny e - padding_fraction * (maxy e - miny e);
     maxx := maxx e + padding_fraction * (maxx e - minx e);
     maxy := maxy e + padding_fraction * (maxy e - miny e) |}.

(** The window described by a pair of limits [(xlim, ylim)]. *)
Definition window (l : (Q * Q) * (Q * Q)) : Bounds :=
  mkBounds (fst (fst l)) (fst (snd l)) (snd (fst l)) (snd (snd l)).

(** The limits an axes currently shows. *)
Definition view (ax : Axes) : Bounds := window (xlim ax, ylim ax).

(** The attributes after a sequence of feature boxes has been merged, one
    after the other, into the initial state. *)
Definition merge_all (bs : list Bounds) : ExtentAttrs :=
  fold_left update_bounds bs no_extent.

(** The [i]-th of [n] evenly spaced values from [a] to [b], [n >= 2]. *)
Definition sample (a b : Q) (n i : nat) : Q :=
  a + inject_Z (Z.of_nat i) * ((b - a) / inject_Z (Z.of_nat (n - 1))).

Definition is_digit (c : ascii) : bool :=
  let n := nat_of_ascii c in
  ((48 <=? n) && (n <=? 57))%nat.

Fixpoint all_digits (s : string) : bool :=
  match s with
  | EmptyString => true
  | String c s' => is_digit c && all_digits s'
  end.

(** A tick label: the number with one decimal and the degree sign. *)
Definition tick_label (v : Q) : string := (Py.format_1f v ++ degree)%string.

(** A rational written in lowest terms; a float has one such writing. *)
Definition reduced (q : Q) : Prop := Qred q = q.

Definition box_reduced (b : Bounds) : Prop :=
  reduced (minx b) /\ reduced (miny b) /\ reduced (maxx b) /\ reduced (maxy b).

Definition opt_reduced (o : option Q) : Prop :=
  match o with
  | Some q => reduced q
  | None => True
  end.

Definition attrs_reduced (st : ExtentAttrs) : Prop :=
  opt_reduced (_xmin st) /\ opt_reduced (_xmax st) /\
  opt_reduced (_ymin st) /\ opt_reduced (_ymax st).

(** One line of "Update bounds": [x if attr is None else f(attr, x)]. *)
Definition first_or (f : Q -> Q -> Q) (attr : option Q) (x : Q) : option Q :=
  match attr with
  | None => Some x
  | Some v => Some (f v x)
  end.

(** The feature box of a route or trajectory frame. *)
Definition feature_bounds (total_bounds_3857 : list (Q * Q) -> Bounds)
           (df : list Row) : Bounds :=
  total_bounds_3857 (lon_lat (sort_values Sequence_Number df)).

(** ** Stand-ins for the collaborators, to run the functions *)

(** A projection service that leaves coordinates as they are. *)
Definition plain_transform (x y : Q) : Q * Q := (x, y).

(** The bounding box of a vertex list whose coordinates are taken as
    already planar. *)
Definition plain_bounds (pts : list (Q * Q)) : Bounds :=
  match pts with
  | [] => mkBounds 0 0 0 0
  | (x, y) :: rest =>
      fold_left (fun b p => mkBounds (Qmin (minx b) (fst p)) (Qmin (miny b) (snd p))
                                      (Qmax (maxx b) (fst p)) (Qmax (maxy b) (snd p)))
                rest (mkBounds x y x y)
  end.

(** A geometry service that answers with the same box whatever it is
    given. *)
Definition const_bounds (b : Bounds) (pts : list (Q * Q)) : Bounds := b.

(** A renderer that leaves the view limits alone. *)
Definition no_autoscale (v : (Q * Q) * (Q * Q)) (pts : list (Q * Q)) :
  (Q * Q) * (Q * Q) := v.

(** The two features of the specification's scenario:
    [{x:[0,10], y:[0,5]}] and [{x:[5,15], y:[-2,3]}], as boxes and as
    two-point routes. *)
Definition box_a : Bounds := mkBounds 0 0 10 5.
Definition box_b : Bounds := mkBounds 5 (-2) 15 3.

Definition route_a : list Row :=
  [mkRow "A" 1 0 0; mkRow "A" 2 5 10].
Definition route_b : list Row :=
  [mkRow "B" 1 (-2) 5; mkRow "B" 2 3 15].

(** A box whose [x_min] exceeds its [x_max]. *)
Definition box_backwards : Bounds := mkBounds 3 0 1 1.

(** Two triangles with the bounding boxes of the scenario. *)
Definition triangle_a : list Row :=
  [mkRow "A" 1 0 0; mkRow "A" 2 0 10; mkRow "A" 3 5 10].
Definition triangle_b : list Row :=
  [mkRow "B" 1 (-2) 5; mkRow "B" 2 (-2) 15; mkRow "B" 3 3 15].

(** An event frame that holds one event, of flight "F2". *)
Definition events_f2 : list EventRow := [mkEventRow "F2" 0 48 2 35000].

(** ** Mixed overlays *)

(** The two functions that keep the extent attributes. *)
Inductive kind : Type :=
| Route
| Trajectory.

Definition plot_as (transform : Q -> Q -> Q * Q)
           (total_bounds_3857 : list (Q * Q) -> Bounds) (k : kind) :
  list Row -> option Axes -> result Axes :=
  match k with
  | Route => plot_route transform total_bounds_3857
  | Trajectory => plot_trajectory transform total_bounds_3857
  end.

(** The padding literal of each function. *)
Definition padding (k : kind) : Q :=
  match k with
  | Route => 0.2
  | Trajectory => 0.3
  end.

(** Calls of [plot_route] and [plot_trajectory] in any succession on one
    axes. *)
Fixpoint overlay_mixed (transform : Q -> Q -> Q * Q)
         (total_bounds_3857 : list (Q * Q) -> Bounds)
         (calls : list (kind * list Row)) (ax : option Axes) : result (option Axes) :=
  match calls with
  | [] => Ok ax
  | (k, df) :: rest =>
      ax' <- plot_as transform total_bounds_3857 k df ax ;;
      overlay_mixed transform total_bounds_3857 rest (Some ax')
  end.

(** The arguments of [set_xlim] and [set_ylim] for an extent [e] and a
    padding literal, as "Update limits" computes them. *)
Definition limits_of (pad : Q) (e : Bounds) : (Q * Q) * (Q * Q) :=
  ((minx e - (maxx e - minx e) * pad, maxx e + (maxx e - minx e) * pad),
   (miny e - (maxy e - miny e) * pad, maxy e + (maxy e - miny e) * pad)).

(** The feature boxes of a succession of calls. *)
Definition call_bounds (total_bounds_3857 : list (Q * Q) -> Bounds)
           (calls : list (kind * list Row)) : list Bounds :=
  map (fun c => feature_bounds total_bounds_3857 (snd c)) calls.

(** ** The histogram of departures and arrivals *)

(** A row of the flights frame; the four times are seconds since the
    epoch, UTC. *)
Record Flight : Type := mkFlight {
  ADEP : string;
  ADES : string;
  FILED_OFF_BLOCK_TIME : Z;
  ACTUAL_OFF_BLOCK_TIME : Z;
  FILED_ARRIVAL_TIME : Z;
  ACTUAL_ARRIVAL_TIME : Z
}.

Module Pd.

(** [Series.dt.hour]: the hour of the day of a timestamp. *)
Definition hour (t : Z) : Z := ((t / 3600) mod 24)%Z.

End Pd.

(** [range(start, stop)] *)
Definition py_range (start stop : Z) : list Z :=
  map (fun i => (start + Z.of_nat i)%Z) (seq 0 (Z.to_nat (stop - start))).

(** [np.histogram(a, bins)] for a sequence of bin edges, as [Axes.hist]
    computes the bar heights: the bin between two consecutive edges is
    half-open, except the last one, which includes its right edge. *)
Fixpoint np_histogram (a : list Z) (bins : list Z) : list nat :=
  match bins with
  | lo :: ((hi :: rest) as tl) =>
      let last := match rest with [] => true | _ :: _ => false end in
      List.length
        (filter (fun v => (lo <=? v)%Z && (if last then (v <=? hi)%Z else (v <? hi)%Z)) a)
      :: np_histogram a tl
  | _ => []
  end.

(** The bar heights of the two panels, each with its "Filed" and "Actual"
    series. *)
Record HistPanels : Type := mkHistPanels {
  departures_filed : list nat;
  departures_actual : list nat;
  arrivals_filed : list nat;
  arrivals_actual : list nat
}.

(** [plot_histogram_departures_arrivals_planned_actual(df_flights, airport)]:
<<
    departures = df_flights[df_flights["ADEP"] == airport].copy()
    arrivals = df_flights[df_flights["ADES"] == airport].copy()
    departures["FILED_HOUR"] = departures["FILED OFF BLOCK TIME"].dt.hour
    departures["ACTUAL_HOUR"] = departures["ACTUAL OFF BLOCK TIME"].dt.hour
    arrivals["FILED_HOUR"] = arrivals["FILED ARRIVAL TIME"].dt.hour
    arrivals["ACTUAL_HOUR"] = arrivals["ACTUAL ARRIVAL TIME"].dt.hour
    axes[0].hist([departures["FILED_HOUR"], departures["ACTUAL_HOUR"]],
                 bins=range(0, 25), ...)
    axes[1].hist([arrivals["FILED_HOUR"], arrivals["ACTUAL_HOUR"]],
                 bins=range(0, 25), ...)
>>
    The function returns nothing; the value here is what the figure
    shows. *)
Definition plot_histogram_departures_arrivals_planned_actual
           (df_flights : list Flight) (airport : string) : HistPanels :=
  let departures := filter (fun f => String.eqb (ADEP f) airport) df_flights in
  let arrivals := filter (fun f => String.eqb (ADES f) airport) df_flights in
  let bins := py_range 0 25 in
  {| departures_filed :=
       np_histogram (map (fun f => Pd.hour (FILED_OFF_BLOCK_TIME f)) departures) bins;
     departures_actual :=
       np_histogram (map (fun f => Pd.hour (ACTUAL_OFF_BLOCK_TIME f)) departures) bins;
     arrivals_filed :=
       np_histogram (map (fun f => Pd.hour (FILED_ARRIVAL_TIME f)) arrivals) bins;
     arrivals_actual :=
       np_histogram (map (fun f => Pd.hour (ACTUAL_ARRIVAL_TIME f)) arrivals) bins |}.

(** Flights through "LFPG": one out at 23:59:59, one in at 00:00:00, one
    elsewhere. *)
Definition flights_sample : list Flight :=
  [mkFlight "LFPG" "EGLL" 86399 86399 90000 90000;
   mkFlight "EGLL" "LFPG" 0 0 0 3600;
   mkFlight "EDDF" "LEMD" 7200 7200 14400 14400].

(** Three rows of three different airspaces. *)
Definition mixed_airspaces : list Row :=
  [mkRow "A" 1 0 0; mkRow "B" 2 0 10; mkRow "C" 3 5 10].

(** A projection whose second coordinate is not affine. *)
Definition bent_transform (x y : Q) : Q * Q := (x, y * y).

(** A projection that is affine on each axis, as longitude is in the
    Web Mercator plane. *)
Definition scaled_transform (x y : Q) : Q * Q := (x / 100 + 1, y / 50 - 2).

(** A route that is one point, and the same route of the scenario with
    its rows in the other order. *)
Definition route_point : list Row := [mkRow "P" 1 4 3; mkRow "P" 2 4 3].
Definition route_a_shuffled : list Row :=
  [mkRow "A" 2 5 10; mkRow "A" 1 0 0].

(** ** Python's [min] and [max] are the minimum and the maximum *)

Lemma py_min_Qmin (a b : Q) : Py.min a b = Qmin a b.
Proof.
  unfold Py.min, Qmin, GenericMinMax.gmin.
  rewrite <- (Qcompare_antisym a b).
  destruct (a ?= b); reflexivity.
Qed.

Lemma py_max_Qmax (a b : Q) : Py.max a b = Qmax a b.
Proof.
  unfold Py.max, Qmax, GenericMinMax.gmax.
  rewrite <- (Qcompare_antisym a b).
  destruct (a ?= b); reflexivity.
Qed.

Lemma py_min_le_l (a b : Q) : Py.min a b <= a.
Proof. rewrite py_min_Qmin. apply Q.le_min_l. Qed.

Lemma py_max_ge_l (a b : Q) : a <= Py.max a b.
Proof. rewrite py_max_Qmax. apply Q.le_max_l. Qed.

Lemma py_min_le_r (a b : Q) : Py.min a b <= b.
Proof. rewrite py_min_Qmin. apply Q.le_min_r. Qed.

Lemma py_max_ge_r (a b : Q) : b <= Py.max a b.
Proof. rewrite py_max_Qmax. apply Q.le_max_r. Qed.

(** [min] keeps its first argument when the second is not smaller. *)
Lemma py_min_keep (a b : Q) : a <= b -> Py.min a b = a.
Proof.
  intros H. unfold Py.min.
  destruct (b ?= a) eqn:E; try reflexivity.
  apply Qlt_alt in E. apply Qle_not_lt in H. contradiction.
Qed.

(** [max] keeps its first argument when the second is not larger. *)
Lemma py_max_keep (a b : Q) : b <= a -> Py.max a b = a.
Proof.
  intros H. unfold Py.max.
  destruct (b ?= a) eqn:E; try reflexivity.
  apply Qgt_alt in E. apply Qle_not_lt in H. contradiction.
Qed.

(** ** The attributes after an update *)

Lemma extent_attrs_of (e : Bounds) : extent (attrs_of e) = Some e.
Proof. destruct e; reflexivity. Qed.

Lemma update_bounds_empty (b : Bounds) : update_bounds no_extent b = attrs_of b.
Proof. reflexivity. Qed.

Lemma update_bounds_full (e b : Bounds) :
  update_bounds (attrs_of e) b = attrs_of (merge (Some e) b).
Proof.
  unfold update_bounds, attrs_of, merge; simpl.
  now rewrite !py_min_Qmin, !py_max_Qmax.
Qed.

(** Whatever the attributes held, after an update each of them holds a
    number. *)
Lemma update_bounds_some (st : ExtentAttrs) (b : Bounds) :
  exists e, update_bounds st b = attrs_of e.
Proof.
  destruct st as [[x0|] [x1|] [y0|] [y1|]]; unfold update_bounds, attrs_of; simpl;
    match goal with
    | |- exists e, mkExtent (Some ?a) (Some ?b) (Some ?c) (Some ?d) = _ =>
        exists (mkBounds a c b d); reflexivity
    end.
Qed.

Lemma padded_limits_full (pad : Q) (e : Bounds) :
  padded_limits pad (attrs_of e)
  = Ok ((minx e - (maxx e - minx e) * pad, maxx e + (maxx e - minx e) * pad),
        (miny e - (maxy e - miny e) * pad, maxy e + (maxy e - miny e) * pad)).
Proof. reflexivity. Qed.

Section Runs.

Variable transform : Q -> Q -> Q * Q.
Variable total_bounds_3857 : list (Q * Q) -> Bounds.

Lemma latlon_ticks_attrs (ax : Axes) : attrs (latlon_ticks transform ax) = attrs ax.
Proof.
  unfold latlon_ticks.
  destruct (transform (fst (xlim ax)) (fst (ylim ax))), (transform (snd (xlim ax)) (snd (ylim ax))).
  reflexivity.
Qed.

Lemma latlon_ticks_view (ax : Axes) : view (latlon_ticks transform ax) = view ax.
Proof.
  unfold latlon_ticks, view.
  destruct (transform (fst (xlim ax)) (fst (ylim ax))), (transform (snd (xlim ax)) (snd (ylim ax))).
  reflexivity.
Qed.

(** One call of [plot_route] on an axes that carries the attributes:
    it cannot raise, the attributes are updated with the feature's
    bounds, and the view is the padded one. *)
Lemma plot_route_run (df : list Row) (ax : Axes) (st : ExtentAttrs) :
  let b := total_bounds_3857 (lon_lat (sort_values Sequence_Number df)) in
  exists ax' e l,
    plot_route transform total_bounds_3857 df (Some (set_attrs ax st)) = Ok ax' /\
    update_bounds st b = attrs_of e /\
    attrs ax' = Some (update_bounds st b) /\
    padded_limits 0.2 (attrs_of e) = Ok l /\
    view ax' = window l.
Proof.
  intros b. destruct (update_bounds_some st b) as [e He].
  eexists _, e, _. unfold plot_route. simpl. fold b. rewrite He.
  rewrite padded_limits_full. simpl.
  repeat split.
  - now rewrite latlon_ticks_attrs.
  - now rewrite latlon_ticks_view.
Qed.

Lemma plot_trajectory_run (df : list Row) (ax : Axes) (st : ExtentAttrs) :
  let b := total_bounds_3857 (lon_lat (sort_values Sequence_Number df)) in
  exists ax' e l,
    plot_trajectory transform total_bounds_3857 df (Some (set_attrs ax st)) = Ok ax' /\
    update_bounds st b = attrs_of e /\
    attrs ax' = Some (update_bounds st b) /\
    padded_limits 0.3 (attrs_of e) = Ok l /\
    view ax' = window l.
Proof.
  intros b. destruct (update_bounds_some st b) as [e He].
  eexists _, e, _. unfold plot_trajectory. simpl. fold b. rewrite He.
  rewrite padded_limits_full. simpl.
  repeat split.
  - now rewrite latlon_ticks_attrs.
  - now rewrite latlon_ticks_view.
Qed.

End Runs.

(** ** Merging a feature box *)


(** ** Containment and the invariant *)

(** C9.  Merging a box that lies within the accumulated extent leaves the
    extent attributes as they were. *)
Theorem update_bounds_inside_unchanged :
  forall e b : Bounds,
    minx e <= minx b -> maxx b <= maxx e ->
    miny e <= miny b -> maxy b <= maxy e ->
    update_bounds (attrs_of e) b = attrs_of e /\
    extent (update_bounds (attrs_of e) b) = Some e.
Proof.
  intros e b Hx0 Hx1 Hy0 Hy1.
  assert (H : update_bounds (attrs_of e) b = attrs_of e).
  { unfold update_bounds, attrs_of; simpl.
    now rewrite !py_min_keep, !py_max_keep by assumption. }
  split; [exact H|]. rewrite H. apply extent_attrs_of.
Qed.

Lemma update_bounds_inside_unchanged_witness :
  update_bounds (attrs_of (mkBounds 0 (-2) 15 5)) (mkBounds 5 0 10 3)
  = attrs_of (mkBounds 0 (-2) 15 5).
Proof.
  apply (update_bounds_inside_unchanged (mkBounds 0 (-2) 15 5) (mkBounds 5 0 10 3));
    simpl; unfold Qle; simpl; lia.
Defined.

Lemma merge_contains_old (e b : Bounds) : inside e (merge (Some e) b).
Proof.
  unfold inside, merge; simpl.
  repeat split; auto using Q.le_min_l, Q.le_max_l.
Qed.

Lemma merge_contains_new (e b : Bounds) : inside b (merge (Some e) b).
Proof.
  unfold inside, merge; simpl.
  repeat split; auto using Q.le_min_r, Q.le_max_r.
Qed.

Lemma merge_nondegenerate (e b : Bounds) :
  nondegenerate e -> nondegenerate (merge (Some e) b).
Proof.
  intros [Hx Hy]. destruct (merge_contains_old e b) as (A & B & C & D).
  split.
  - apply Qle_trans with (minx e); [exact A|]. now apply Qle_trans with (maxx e).
  - apply Qle_trans with (miny e); [exact C|]. now apply Qle_trans with (maxy e).
Qed.

Lemma update_bounds_ok (st : ExtentAttrs) (b : Bounds) :
  extent_ok st -> nondegenerate b -> extent_ok (update_bounds st b).
Proof.
  intros [->|(e & -> & He)] Hb; right.
  - exists b. now split.
  - exists (merge (Some e) b). split; [apply update_bounds_full|].
    now apply merge_nondegenerate.
Qed.

(** Every state reached from the initial one by merging non-degenerate
    boxes satisfies the invariant. *)
Lemma merge_all_ok (bs : list Bounds) :
  Forall nondegenerate bs -> extent_ok (merge_all bs).
Proof.
  unfold merge_all.
  assert (G : forall st, extent_ok st -> Forall nondegenerate bs ->
                         extent_ok (fold_left update_bounds bs st)).
  { induction bs as [|b bs IH]; intros st Hst Hbs; simpl; [exact Hst|].
    inversion Hbs; subst. apply IH; [|assumption]. now apply update_bounds_ok. }
  apply G. now left.
Qed.

(** C10.  The accumulated extent never shrinks: merging a feature box into
    a state that holds a box gives a box that contains the old one; and the
    invariant [x_min <= x_max], [y_min <= y_max] of the state is preserved
    by merging a non-degenerate box, from the empty state as well. *)
Theorem extent_never_shrinks :
  forall b : Bounds,
    (forall e : Bounds,
        exists e',
          update_bounds (attrs_of e) b = attrs_of e' /\
          (minx e' <= minx e /\ maxx e <= maxx e' /\
           miny e' <= miny e /\ maxy e <= maxy e') /\
          (minx e <= maxx e -> miny e <= maxy e -> nondegenerate b ->
           minx e' <= maxx e' /\ miny e' <= maxy e')) /\
    (forall st : ExtentAttrs,
        extent_ok st -> nondegenerate b -> extent_ok (update_bounds st b)).
Proof.
  intros b. split.
  - intros e. exists (merge (Some e) b).
    split; [apply update_bounds_full|].
    destruct (merge_contains_old e b) as (A & B & C & D).
    split; [repeat split; assumption|].
    intros Hx Hy _. apply merge_nondegenerate. now split.
  - intros st. apply update_bounds_ok.
Qed.

Lemma extent_never_shrinks_witness :
  extent_ok (update_bounds (attrs_of (mkBounds 0 0 10 5)) (mkBounds 5 (-2) 15 3)) /\
  exists e',
    update_bounds (attrs_of (mkBounds 0 0 10 5)) (mkBounds 5 (-2) 15 3) = attrs_of e' /\
    minx e' <= maxx e' /\ miny e' <= maxy e'.
Proof.
  destruct (extent_never_shrinks (mkBounds 5 (-2) 15 3)) as [H1 H2].
  split.
  - apply H2.
    + right. exists (mkBounds 0 0 10 5).
      split; [reflexivity|]. split; simpl; unfold Qle; simpl; lia.
    + split; simpl; unfold Qle; simpl; lia.
  - destruct (H1 (mkBounds 0 0 10 5)) as (e' & He & _ & H).
    exists e'. split; [exact He|]. apply H.
    + simpl; unfold Qle; simpl; lia.
    + simpl; unfold Qle; simpl; lia.
    + split; simpl; unfold Qle; simpl; lia.
Defined.

(** ** Order of the merges *)

Lemma opt_eq_refl (a : option Q) : opt_eq a a.
Proof. destruct a; simpl; [reflexivity|exact I]. Qed.

Lemma opt_eq_sym (a b : option Q) : opt_eq a b -> opt_eq b a.
Proof. destruct a, b; simpl; auto. intros H. now symmetry. Qed.

Lemma opt_eq_trans (a b c : option Q) : opt_eq a b -> opt_eq b c -> opt_eq a c.
Proof.
  destruct a, b, c; simpl; auto; try contradiction.
  intros H1 H2. now rewrite H1.
Qed.

Lemma attrs_eq_refl (s : ExtentAttrs) : attrs_eq s s.
Proof. unfold attrs_eq. auto using opt_eq_refl. Qed.

Lemma attrs_eq_sym (s t : ExtentAttrs) : attrs_eq s t -> attrs_eq t s.
Proof. unfold attrs_eq. intros (A & B & C & D). auto using opt_eq_sym. Qed.

Lemma attrs_eq_trans (s t u : ExtentAttrs) :
  attrs_eq s t -> attrs_eq t u -> attrs_eq s u.
Proof.
  unfold attrs_eq. intros (A & B & C & D) (A' & B' & C' & D').
  repeat split; eapply opt_eq_trans; eassumption.
Qed.

Lemma update_bounds_fields (st : ExtentAttrs) (b : Bounds) :
  update_bounds st b
  = mkExtent (first_or Py.min (_xmin st) (minx b)) (first_or Py.max (_xmax st) (maxx b))
             (first_or Py.min (_ymin st) (miny b)) (first_or Py.max (_ymax st) (maxy b)).
Proof. reflexivity. Qed.

Section FieldOrder.

(** A binary operation that is compatible with [==], commutative and
    associative: [min] and [max] below. *)
Variable f : Q -> Q -> Q.
Hypothesis f_compat : forall a a' b b', a == a' -> b == b' -> f a b == f a' b'.
Hypothesis f_comm : forall a b, f a b == f b a.
Hypothesis f_assoc : forall a b c, f (f a b) c == f a (f b c).

Lemma first_or_compat (o o' : option Q) (x : Q) :
  opt_eq o o' -> opt_eq (first_or f o x) (first_or f o' x).
Proof.
  destruct o, o'; simpl; try contradiction; intros H.
  - apply f_compat; [exact H|reflexivity].
  - reflexivity.
Qed.

Lemma first_or_swap (o : option Q) (x y : Q) :
  opt_eq (first_or f (first_or f o x) y) (first_or f (first_or f o y) x).
Proof.
  destruct o; simpl.
  - rewrite !f_assoc. apply f_compat; [reflexivity|apply f_comm].
  - apply f_comm.
Qed.

End FieldOrder.

Lemma py_min_compat (a a' b b' : Q) : a == a' -> b == b' -> Py.min a b == Py.min a' b'.
Proof. intros Ha Hb. rewrite !py_min_Qmin. now rewrite Ha, Hb. Qed.

Lemma py_max_compat (a a' b b' : Q) : a == a' -> b == b' -> Py.max a b == Py.max a' b'.
Proof. intros Ha Hb. rewrite !py_max_Qmax. now rewrite Ha, Hb. Qed.

Lemma py_min_comm (a b : Q) : Py.min a b == Py.min b a.
Proof. rewrite !py_min_Qmin. apply Q.min_comm. Qed.

Lemma py_max_comm (a b : Q) : Py.max a b == Py.max b a.
Proof. rewrite !py_max_Qmax. apply Q.max_comm. Qed.

Lemma py_min_assoc (a b c : Q) : Py.min (Py.min a b) c == Py.min a (Py.min b c).
Proof. rewrite !py_min_Qmin. symmetry. apply Q.min_assoc. Qed.

Lemma py_max_assoc (a b c : Q) : Py.max (Py.max a b) c == Py.max a (Py.max b c).
Proof. rewrite !py_max_Qmax. symmetry. apply Q.max_assoc. Qed.

Lemma update_bounds_compat (s t : ExtentAttrs) (b : Bounds) :
  attrs_eq s t -> attrs_eq (update_bounds s b) (update_bounds t b).
Proof.
  intros (A & B & C & D). rewrite !update_bounds_fields. unfold attrs_eq; simpl.
  repeat split;
    auto using first_or_compat, py_min_compat, py_max_compat.
Qed.

(** Two merges commute, whatever the state they start from. *)
Lemma update_bounds_swap (st : ExtentAttrs) (a b : Bounds) :
  attrs_eq (update_bounds (update_bounds st a) b) (update_bounds (update_bounds st b) a).
Proof.
  rewrite !update_bounds_fields. unfold attrs_eq; simpl.
  repeat split;
    auto using first_or_swap, py_min_compat, py_max_compat, py_min_comm, py_max_comm,
      py_min_assoc, py_max_assoc.
Qed.

Lemma fold_update_compat (bs : list Bounds) :
  forall s t, attrs_eq s t ->
              attrs_eq (fold_left update_bounds bs s) (fold_left update_bounds bs t).
Proof.
  induction bs as [|b bs IH]; intros s t H; simpl; [exact H|].
  apply IH. now apply update_bounds_compat.
Qed.

Lemma fold_update_perm (bs bs' : list Bounds) :
  Permutation bs bs' ->
  forall s t, attrs_eq s t ->
              attrs_eq (fold_left update_bounds bs s) (fold_left update_bounds bs' t).
Proof.
  induction 1 as [|b l l' _ IH|a b l|l l' l'' _ IH1 _ IH2]; intros s t Hst; simpl.
  - exact Hst.
  - apply IH. now apply update_bounds_compat.
  - apply fold_update_compat.
    apply attrs_eq_trans with (update_bounds (update_bounds s a) b).
    + apply update_bounds_swap.
    + now do 2 apply update_bounds_compat.
  - apply attrs_eq_trans with (fold_left update_bounds l' t).
    + now apply IH1.
    + apply IH2. apply attrs_eq_refl.
Qed.

(** [min] and [max] return one of their arguments, so merging boxes whose
    numbers are in lowest terms keeps the attributes in lowest terms, and
    equal numbers are then the same term. *)
Lemma py_min_cases (a b : Q) : Py.min a b = a \/ Py.min a b = b.
Proof. unfold Py.min. destruct (b ?= a); auto. Qed.

Lemma py_max_cases (a b : Q) : Py.max a b = a \/ Py.max a b = b.
Proof. unfold Py.max. destruct (b ?= a); auto. Qed.

Lemma first_or_reduced (f : Q -> Q -> Q) (o : option Q) (x : Q) :
  (forall a b, f a b = a \/ f a b = b) ->
  opt_reduced o -> reduced x -> opt_reduced (first_or f o x).
Proof.
  intros Hf Ho Hx. destruct o as [v|]; simpl in *; [|exact Hx].
  destruct (Hf v x) as [-> | ->]; assumption.
Qed.

Lemma update_bounds_reduced (st : ExtentAttrs) (b : Bounds) :
  attrs_reduced st -> box_reduced b -> attrs_reduced (update_bounds st b).
Proof.
  intros (A & B & C & D) (E & F & G & H). rewrite update_bounds_fields.
  unfold attrs_reduced; simpl.
  repeat split; apply first_or_reduced;
    auto using py_min_cases, py_max_cases.
Qed.

Lemma fold_update_reduced (bs : list Bounds) :
  forall st, attrs_reduced st -> Forall box_reduced bs ->
             attrs_reduced (fold_left update_bounds bs st).
Proof.
  induction bs as [|b bs IH]; intros st Hst Hbs; simpl; [exact Hst|].
  inversion Hbs; subst. apply IH; [|assumption]. now apply update_bounds_reduced.
Qed.

Lemma opt_eq_reduced (a b : option Q) :
  opt_reduced a -> opt_reduced b -> opt_eq a b -> a = b.
Proof.
  destruct a as [x|], b as [y|]; simpl; try contradiction; [|reflexivity].
  intros Hx Hy H. apply Qred_complete in H. rewrite Hx, Hy in H. now subst.
Qed.

Lemma attrs_eq_reduced (s t : ExtentAttrs) :
  attrs_reduced s -> attrs_reduced t -> attrs_eq s t -> s = t.
Proof.
  destruct s, t. unfold attrs_reduced, attrs_eq; simpl.
  intros (A & B & C & D) (A' & B' & C' & D') (E & F & G & H).
  f_equal; now apply opt_eq_reduced.
Qed.

Lemma merge_all_perm_reduced (bs bs' : list Bounds) :
  Permutation bs bs' -> Forall box_reduced bs -> merge_all bs = merge_all bs'.
Proof.
  intros Hp Hr. unfold merge_all.
  assert (Hn : attrs_reduced no_extent) by (repeat split).
  apply attrs_eq_reduced.
  - now apply fold_update_reduced.
  - apply fold_update_reduced; [exact Hn|].
    rewrite Forall_forall in *. intros b Hb. apply Hr.
    now apply (Permutation_in b (Permutation_sym Hp)).
  - apply fold_update_perm; [exact Hp|apply attrs_eq_refl].
Qed.

Lemma set_attrs_same (ax : Axes) (st : ExtentAttrs) :
  attrs ax = Some st -> set_attrs ax st = ax.
Proof. destruct ax; simpl. now intros ->. Qed.

Lemma attrs_of_eq (e e' : Bounds) :
  attrs_eq (attrs_of e) (attrs_of e') -> Bounds_eq e e'.
Proof. unfold attrs_eq, Bounds_eq; simpl. tauto. Qed.

Lemma padded_window_compat (pad : Q) (e e' : Bounds) l l' :
  Bounds_eq e e' ->
  padded_limits pad (attrs_of e) = Ok l ->
  padded_limits pad (attrs_of e') = Ok l' ->
  Bounds_eq (window l) (window l').
Proof.
  intros (A & B & C & D). rewrite !padded_limits_full.
  intros [= <-] [= <-]. unfold Bounds_eq, window; simpl.
  rewrite A, B, C, D. repeat split; reflexivity.
Qed.

Section Overlay.

(** One of the two overlay functions, with its padding literal. *)
Variable plot : list Row -> option Axes -> result Axes.
Variable pad : Q.
Variable bounds_of : list Row -> Bounds.
Hypothesis plot_run :
  forall df ax st,
  exists ax' e l,
    plot df (Some (set_attrs ax st)) = Ok ax' /\
    update_bounds st (bounds_of df) = attrs_of e /\
    attrs ax' = Some (update_bounds st (bounds_of df)) /\
    padded_limits pad (attrs_of e) = Ok l /\
    view ax' = window l.
Hypothesis plot_new :
  forall df, plot df None = plot df (Some (set_attrs subplots no_extent)).

Lemma overlay_onto (dfs : list (list Row)) :
  forall df ax st,
  exists ax' e l,
    overlay plot (df :: dfs) (Some (set_attrs ax st)) = Ok (Some ax') /\
    fold_left update_bounds (map bounds_of (df :: dfs)) st = attrs_of e /\
    attrs ax' = Some (attrs_of e) /\
    padded_limits pad (attrs_of e) = Ok l /\
    view ax' = window l.
Proof.
  induction dfs as [|df' dfs IH]; intros df ax st.
  - destruct (plot_run df ax st) as (ax' & e & l & H1 & H2 & H3 & H4 & H5).
    exists ax', e, l. simpl. rewrite H1. simpl. rewrite <- H2.
    repeat split; try assumption. now rewrite H2.
  - destruct (plot_run df ax st) as (ax' & e & l & H1 & H2 & H3 & H4 & H5).
    destruct (IH df' ax' (update_bounds st (bounds_of df)))
      as (ax'' & e'' & l'' & K1 & K2 & K3 & K4 & K5).
    exists ax'', e'', l''.
    rewrite (set_attrs_same _ _ H3) in K1.
    change (overlay plot (df :: df' :: dfs) (Some (set_attrs ax st)))
      with (ax1 <- plot df (Some (set_attrs ax st)) ;;
            overlay plot (df' :: dfs) (Some ax1)).
    rewrite H1. simpl Py.bind.
    repeat split; assumption.
Qed.

(** The overlay of a non-empty list of features on a new axes. *)
Lemma overlay_new (df : list Row) (dfs : list (list Row)) :
  exists ax' e l,
    overlay plot (df :: dfs) None = Ok (Some ax') /\
    merge_all (map bounds_of (df :: dfs)) = attrs_of e /\
    attrs ax' = Some (attrs_of e) /\
    padded_limits pad (attrs_of e) = Ok l /\
    view ax' = window l.
Proof.
  destruct (overlay_onto dfs df subplots no_extent) as (ax' & e & l & H).
  exists ax', e, l.
  change (overlay plot (df :: dfs) None)
    with (ax1 <- plot df None ;; overlay plot dfs (Some ax1)).
  rewrite plot_new. exact H.
Qed.

(** Two overlays of the same features in different orders end with the
    same attributes and the same view. *)
Lemma overlay_perm (dfs dfs' : list (list Row)) :
  dfs <> [] ->
  Permutation (map bounds_of dfs) (map bounds_of dfs') ->
  exists a a' s s',
    overlay plot dfs None = Ok (Some a) /\
    overlay plot dfs' None = Ok (Some a') /\
    attrs a = Some s /\ attrs a' = Some s' /\
    attrs_eq s s' /\ Bounds_eq (view a) (view a').
Proof.
  intros Hne Hp.
  destruct dfs as [|df dfs]; [contradiction|].
  destruct dfs' as [|df' dfs'].
  { apply Permutation_sym, Permutation_nil in Hp. discriminate Hp. }
  destruct (overlay_new df dfs) as (a & e & l & H1 & H2 & H3 & H4 & H5).
  destruct (overlay_new df' dfs') as (a' & e' & l' & K1 & K2 & K3 & K4 & K5).
  exists a, a', (attrs_of e), (attrs_of e').
  assert (E : attrs_eq (attrs_of e) (attrs_of e')).
  { rewrite <- H2, <- K2. unfold merge_all.
    apply fold_update_perm; [exact Hp|apply attrs_eq_refl]. }
  repeat split; try assumption; try apply E.
  all: rewrite H5, K5;
    apply (padded_window_compat pad e e' l l' (attrs_of_eq _ _ E) H4 K4).
Qed.

End Overlay.



(** [plot_airspace] keeps no extent attributes: it merges the polygon's
    box into the limits the axes currently shows, which already include
    the padding of the previous call.  With a renderer that leaves the
    limits alone, drawing two polygons in the two orders ends with two
    different views. *)
Lemma plot_airspace_order_matters :
  exists a ab b ba,
    plot_airspace plain_transform plain_bounds no_autoscale triangle_a EmptyString None = Ok a /\
    plot_airspace plain_transform plain_bounds no_autoscale triangle_b EmptyString (Some a) = Ok ab /\
    plot_airspace plain_transform plain_bounds no_autoscale triangle_b EmptyString None = Ok b /\
    plot_airspace plain_transform plain_bounds no_autoscale triangle_a EmptyString (Some b) = Ok ba /\
    Bounds_eq (view ab) (mkBounds (-5.4) (-3.6) 18.4 7.6) /\
    Bounds_eq (view ba) (mkBounds (-3.4) (-4.6) 20.4 6.6).
Proof.
  do 4 eexists. do 4 (split; [reflexivity|]). split; now vm_compute.
Qed.

(** ** No validation of the feature box *)




(** ** The scenario of the specification *)

(** The window the specification gives for the scenario,
    [{x:[-3,18], y:[-1.4,6.4]}], is not the one computed: the lower [y]
    limit is [-2 - 1.4]. *)
Lemma scenario_window_not_as_specified :
  ~ (update_bounds (update_bounds no_extent box_a) box_b = attrs_of (mkBounds 0 (-2) 15 5) /\
     exists l,
       padded_limits 0.2 (update_bounds (update_bounds no_extent box_a) box_b) = Ok l /\
       Bounds_eq (window l) (mkBounds (-3) (-1.4) 18 6.4)).
Proof.
  intros (_ & l & Hl & _ & Hy & _).
  vm_compute in Hl. injection Hl as <-.
  vm_compute in Hy. discriminate Hy.
Qed.

(** The same scenario in double precision: the lower [y] limit is the
    double next below [-3.4], far from [-1.4]. *)
Lemma scenario_window_binary64 :
  Binary64.padded_limits Binary64.lit_0_2
    (Binary64.update_bounds
       (Binary64.update_bounds Binary64.no_extent Binary64.box_a) Binary64.box_b)
  = Some ((-3, 18)%float, (Binary64.below_m3_4, Binary64.lit_6_4)) /\
  (Binary64.below_m3_4 =? Binary64.lit_m1_4)%float = false /\
  (Binary64.lit_m3_4 - Binary64.below_m3_4 <? 0x1p-50)%float = true.
Proof. repeat split. Qed.

(** C4 (amended).  Merging [{x:[0,10], y:[0,5]}] into the empty state and
    then [{x:[5,15], y:[-2,3]}] gives the extent [{x:[0,15], y:[-2,5]}],
    and the limits derived from it with the padding 0.2 are
    [{x:[-3,18], y:[-3.4,6.4]}]: exactly so in exact arithmetic, and in
    double precision with the lower [y] limit one unit in the last place
    below [-3.4].  Two calls of [plot_route] on a new axes end in that
    state and that view. *)
Theorem scenario_extent_and_window :
  update_bounds (update_bounds no_extent box_a) box_b = attrs_of (mkBounds 0 (-2) 15 5) /\
  (exists l,
      padded_limits 0.2 (update_bounds (update_bounds no_extent box_a) box_b) = Ok l /\
      Bounds_eq (window l) (mkBounds (-3) (-3.4) 18 6.4)) /\
  (exists ax,
      overlay (plot_route plain_transform plain_bounds) [route_a; route_b] None
      = Ok (Some ax) /\
      attrs ax = Some (attrs_of (mkBounds 0 (-2) 15 5)) /\
      Bounds_eq (view ax) (mkBounds (-3) (-3.4) 18 6.4)) /\
  Binary64.update_bounds
    (Binary64.update_bounds Binary64.no_extent Binary64.box_a) Binary64.box_b
  = Binary64.mkExtent (Some 0%float) (Some 15%float) (Some (-2)%float) (Some 5%float) /\
  Binary64.padded_limits Binary64.lit_0_2
    (Binary64.update_bounds
       (Binary64.update_bounds Binary64.no_extent Binary64.box_a) Binary64.box_b)
  = Some ((-3, 18)%float, (Binary64.below_m3_4, Binary64.lit_6_4)).
Proof.
  split; [reflexivity|]. split; [|split; [|split]].
  - eexists. split; [reflexivity|]. now vm_compute.
  - eexists. split; [reflexivity|]. split; [reflexivity|]. now vm_compute.
  - reflexivity.
  - reflexivity.
Qed.

(** ** The limits of an empty state *)


(** ** The padded limits *)

Lemma padded_limits_expand (pad : Q) (e : Bounds) :
  exists l, padded_limits pad (attrs_of e) = Ok l /\ Bounds_eq (window l) (expand pad e).
Proof.
  eexists. split; [apply padded_limits_full|].
  unfold Bounds_eq, window, expand; simpl. repeat split; ring.
Qed.



(** ** [np.linspace] with six samples *)

Lemma linspace_6_length (a b : Q) : List.length (Np.linspace a b 6) = 6%nat.
Proof. reflexivity. Qed.

Lemma linspace_6_nth (a b : Q) (i : nat) :
  (i < 6)%nat -> nth i (Np.linspace a b 6) 0 == sample a b 6 i.
Proof.
  intros Hi.
  do 6 (destruct i as [|i]; [unfold sample; simpl; field|]).
  lia.
Qed.

Lemma linspace_6_ends (a b : Q) :
  nth 0 (Np.linspace a b 6) 0 == a /\ nth 5 (Np.linspace a b 6) 0 = b.
Proof. split; [simpl; field|reflexivity]. Qed.

Lemma linspace_6_flat (a b : Q) (i : nat) :
  a == b -> (i < 6)%nat -> nth i (Np.linspace a b 6) 0 == a.
Proof.
  intros Hab Hi. rewrite linspace_6_nth by exact Hi.
  unfold sample. rewrite <- Hab. simpl. field.
Qed.

(** ** The format [.1f] *)

Lemma round_half_even_compat (p q : Q) :
  p == q -> Py.round_half_even p = Py.round_half_even q.
Proof.
  destruct p as [n1 d1], q as [n2 d2]. unfold Qeq, Py.round_half_even; cbn [Qnum Qden].
  intros H.
  assert (Hfl : (n1 / Zpos d1 = n2 / Zpos d2)%Z).
  { rewrite <- (Z.div_mul_cancel_r n1 (Zpos d1) (Zpos d2)) by lia.
    rewrite H, (Z.mul_comm (Zpos d1) (Zpos d2)).
    apply Z.div_mul_cancel_r; lia. }
  assert (Hr : ((n1 mod Zpos d1) * Zpos d2 = (n2 mod Zpos d2) * Zpos d1)%Z).
  { rewrite <- !Z.mul_mod_distr_r by lia.
    now rewrite H, (Z.mul_comm (Zpos d1) (Zpos d2)). }
  assert (Hc : (2 * (n1 mod Zpos d1) ?= Zpos d1)%Z = (2 * (n2 mod Zpos d2) ?= Zpos d2)%Z).
  { rewrite (Zmult_compare_compat_r (2 * (n1 mod Zpos d1)) (Zpos d1) (Zpos d2)) by lia.
    rewrite (Zmult_compare_compat_r (2 * (n2 mod Zpos d2)) (Zpos d2) (Zpos d1)) by lia.
    rewrite <- !Z.mul_assoc, Hr. now rewrite (Z.mul_comm (Zpos d1) (Zpos d2)). }
  now rewrite Hfl, Hc.
Qed.

(** The rounded value is a nearest integer. *)
Lemma round_half_even_nearest (q : Q) :
  Qabs (q - inject_Z (Py.round_half_even q)) <= 1 # 2.
Proof.
  destruct q as [n d]. apply Qabs_Qle_condition.
  unfold Py.round_half_even; cbn [Qnum Qden].
  pose proof (Z.div_mod n (Zpos d) ltac:(lia)) as E.
  pose proof (Z.mod_pos_bound n (Zpos d) ltac:(lia)) as B.
  set (fl := (n / Zpos d)%Z) in *. set (r := (n mod Zpos d)%Z) in *.
  assert (G : forall t : Z,
             (2 * Z.abs (n - t * Zpos d) <= Zpos d)%Z ->
             - (1 # 2) <= (n # d) - inject_Z t <= 1 # 2).
  { intros t Ht. unfold Qle, Qminus, Qplus, Qopp, inject_Z; cbn [Qnum Qden].
    split; lia. }
  apply G.
  assert (E0 : (n - fl * Zpos d = r)%Z) by (rewrite E at 1; ring).
  assert (E1 : (n - (fl + 1) * Zpos d = r - Zpos d)%Z) by (rewrite E at 1; ring).
  clearbody fl r. clear G E.
  destruct (Z.compare_spec (2 * r) (Zpos d)) as [C|C|C].
  - destruct (Z.even fl); [rewrite E0|rewrite E1]; lia.
  - rewrite E0; lia.
  - rewrite E1; lia.
Qed.

Lemma uint_digits (u : Decimal.uint) : all_digits (NilEmpty.string_of_uint u) = true.
Proof. induction u; simpl; auto. Qed.

Lemma str_of_N_digits (n : N) :
  all_digits (Py.str_of_N n) = true /\ Py.str_of_N n <> EmptyString.
Proof.
  unfold Py.str_of_N, NilZero.string_of_uint.
  destruct (N.to_uint n) eqn:E; simpl; try (split; [|discriminate]);
    try reflexivity; apply uint_digits.
Qed.

Lemma str_of_N_one_digit (n : N) :
  (n < 10)%N -> exists d, Py.str_of_N n = String d EmptyString /\ is_digit d = true.
Proof.
  intros H.
  assert (E : n = N.of_nat (N.to_nat n)) by lia.
  assert (Hk : (N.to_nat n < 10)%nat) by lia.
  rewrite E. clear E H. revert Hk. generalize (N.to_nat n). intros k Hk.
  do 10 (destruct k as [|k]; [eexists; split; reflexivity|]).
  lia.
Qed.

(** A formatted number is an optional minus sign, at least one integer
    digit, a point and exactly one fractional digit. *)
Lemma format_1f_shape (x : Q) :
  exists sign int d,
    Py.format_1f x = (sign ++ int ++ "." ++ String d EmptyString)%string /\
    (sign = EmptyString \/ sign = "-"%string) /\
    all_digits int = true /\ int <> EmptyString /\ is_digit d = true.
Proof.
  unfold Py.format_1f.
  set (t := Py.round_half_even (Qabs x * 10)).
  destruct (str_of_N_one_digit (Z.to_N (t mod 10))) as (d & Hd & Hdig).
  { pose proof (Z.mod_pos_bound t 10 ltac:(lia)). lia. }
  destruct (str_of_N_digits (Z.to_N (t / 10))) as [Hint Hne].
  exists (if (Qnum x <? 0)%Z then "-"%string else EmptyString),
    (Py.str_of_N (Z.to_N (t / 10))), d.
  rewrite Hd. repeat split; try assumption.
  destruct (Qnum x <? 0)%Z; auto.
Qed.

(** The digits printed are those of the nearest tenth of [|x|]. *)
Lemma format_1f_value (x : Q) :
  let t := Py.round_half_even (Qabs x * 10) in
  Py.format_1f x
  = ((if (Qnum x <? 0)%Z then "-" else EmptyString)
       ++ Py.str_of_N (Z.to_N (t / 10)) ++ "." ++ Py.str_of_N (Z.to_N (t mod 10)))%string /\
  (0 <= t)%Z /\
  Qabs (Qabs x * 10 - inject_Z t) <= 1 # 2.
Proof.
  intros t. split; [reflexivity|]. split; [|apply round_half_even_nearest].
  subst t. set (q := Qabs x * 10).
  assert (Hq : 0 <= q).
  { unfold q. apply Qmult_le_0_compat; [apply Qabs_nonneg|discriminate]. }
  destruct q as [n d]. unfold Qle in Hq; cbn [Qnum Qden] in Hq.
  unfold Py.round_half_even; cbn [Qnum Qden].
  assert (H : (0 <= n / Zpos d)%Z) by (apply Z.div_pos; lia).
  set (fl := (n / Zpos d)%Z) in *. clearbody fl.
  destruct (2 * (n mod Zpos d) ?= Zpos d)%Z; [destruct (Z.even fl)| |]; lia.
Qed.

Lemma format_1f_compat (x y : Q) : x == y -> Py.format_1f x = Py.format_1f y.
Proof.
  intros H. unfold Py.format_1f.
  assert (Hs : (Qnum x <? 0)%Z = (Qnum y <? 0)%Z).
  { destruct x as [n1 d1], y as [n2 d2]. unfold Qeq in H; simpl in *.
    destruct (Z.ltb_spec n1 0), (Z.ltb_spec n2 0); try reflexivity; nia. }
  assert (Ht : Py.round_half_even (Qabs x * 10) = Py.round_half_even (Qabs y * 10)).
  { apply round_half_even_compat. now rewrite H. }
  now rewrite Hs, Ht.
Qed.

Lemma string_app_assoc (s t u : string) : ((s ++ t) ++ u = s ++ (t ++ u))%string.
Proof. induction s as [|c s IH]; simpl; [reflexivity|now rewrite IH]. Qed.

(** A tick label is the formatted number followed by the degree sign:
    optional minus, integer digits, a point, one digit, the sign. *)
Lemma tick_label_shape (v : Q) :
  exists sign int d,
    tick_label v = (sign ++ int ++ "." ++ String d degree)%string /\
    (sign = EmptyString \/ sign = "-"%string) /\
    all_digits int = true /\ int <> EmptyString /\ is_digit d = true.
Proof.
  destruct (format_1f_shape v) as (sign & int & d & H & Hs & Hi & Hn & Hd).
  exists sign, int, d. unfold tick_label. rewrite H.
  rewrite !string_app_assoc. simpl. repeat split; assumption.
Qed.

Lemma tick_label_compat (v w : Q) : v == w -> tick_label v = tick_label w.
Proof. intros H. unfold tick_label. now rewrite (format_1f_compat v w H). Qed.

(** ** Ticks and labels *)

Lemma sort_values_length {A : Type} (key : A -> Z) (df : list A) :
  List.length (sort_values key df) = List.length df.
Proof.
  assert (I : forall x l, List.length (insert_by key x l) = S (List.length l)).
  { intros x l. induction l as [|y l IH]; simpl; [reflexivity|].
    destruct (key x <=? key y)%Z; simpl; [reflexivity|now rewrite IH]. }
  induction df as [|x df IH]; simpl; [reflexivity|]. now rewrite I, IH.
Qed.

Section Ticks.

Variable transform : Q -> Q -> Q * Q.
Variable total_bounds_3857 : list (Q * Q) -> Bounds.
Variable autoscale_view : (Q * Q) * (Q * Q) -> list (Q * Q) -> (Q * Q) * (Q * Q).

Lemma latlon_ticks_fields (ax : Axes) :
  let lower := transform (fst (xlim ax)) (fst (ylim ax)) in
  let upper := transform (snd (xlim ax)) (snd (ylim ax)) in
  xticks (latlon_ticks transform ax) = Np.linspace (fst (xlim ax)) (snd (xlim ax)) 6 /\
  yticks (latlon_ticks transform ax) = Np.linspace (fst (ylim ax)) (snd (ylim ax)) 6 /\
  xticklabels (latlon_ticks transform ax)
  = map tick_label (Np.linspace (fst lower) (fst upper) 6) /\
  yticklabels (latlon_ticks transform ax)
  = map tick_label (Np.linspace (snd lower) (snd upper) 6).
Proof.
  unfold latlon_ticks.
  destruct (transform (fst (xlim ax)) (fst (ylim ax))) as [lon_min lat_min].
  destruct (transform (snd (xlim ax)) (snd (ylim ax))) as [lon_max lat_max].
  simpl. repeat split; reflexivity.
Qed.

Lemma labels_nth (a b : Q) (i : nat) :
  (i < 6)%nat ->
  nth i (map tick_label (Np.linspace a b 6)) EmptyString = tick_label (sample a b 6 i).
Proof.
  intros Hi.
  rewrite (nth_indep _ EmptyString (tick_label 0))
    by (rewrite length_map, linspace_6_length; exact Hi).
  rewrite map_nth. apply tick_label_compat. now apply linspace_6_nth.
Qed.

(** Every plotting function hands back an axes that went through the
    relabelling. *)
Lemma plot_route_relabels (df : list Row) (ax : Axes) (st : ExtentAttrs) :
  exists ax0, plot_route transform total_bounds_3857 df (Some (set_attrs ax st))
              = Ok (latlon_ticks transform ax0).
Proof.
  unfold plot_route; simpl.
  destruct (update_bounds_some st
              (total_bounds_3857 (lon_lat (sort_values Sequence_Number df)))) as [e ->].
  rewrite padded_limits_full. simpl. eexists. reflexivity.
Qed.

Lemma plot_trajectory_relabels (df : list Row) (ax : Axes) (st : ExtentAttrs) :
  exists ax0, plot_trajectory transform total_bounds_3857 df (Some (set_attrs ax st))
              = Ok (latlon_ticks transform ax0).
Proof.
  unfold plot_trajectory; simpl.
  destruct (update_bounds_some st
              (total_bounds_3857 (lon_lat (sort_values Sequence_Number df)))) as [e ->].
  rewrite padded_limits_full. simpl. eexists. reflexivity.
Qed.

Lemma plot_airspace_relabels (df : list Row) (airspace_str : string) (ax : option Axes) :
  (3 <= List.length (airspace_subset df airspace_str))%nat ->
  exists ax0, plot_airspace transform total_bounds_3857 autoscale_view df airspace_str ax
              = Ok (latlon_ticks transform ax0).
Proof.
  intros H. unfold plot_airspace. rewrite sort_values_length.
  destruct (Nat.ltb_spec (List.length (airspace_subset df airspace_str)) 3) as [C|C];
    [lia|].
  match goal with
  | |- context [if ?c then _ else _] => destruct c
  end; eexists; reflexivity.
Qed.

Lemma plot_flight_trajectory_events_relabels (df : list EventRow) (flight : string) :
  flight_events df flight <> [] ->
  exists ax0,
    plot_flight_trajectory_events transform total_bounds_3857 df flight
    = mkOutcome [] (Ok (Some (latlon_ticks transform ax0))).
Proof.
  intros H. unfold plot_flight_trajectory_events.
  destruct (flight_events df flight); [contradiction|].
  eexists. reflexivity.
Qed.

End Ticks.

(** The relabelling asks the projection service for two points only: two
    services that agree on the lower-left and the upper-right corner of
    the view give the same ticks and labels. *)
Lemma latlon_ticks_two_corners (tr tr' : Q -> Q -> Q * Q) (ax : Axes) :
  tr (fst (xlim ax)) (fst (ylim ax)) = tr' (fst (xlim ax)) (fst (ylim ax)) ->
  tr (snd (xlim ax)) (snd (ylim ax)) = tr' (snd (xlim ax)) (snd (ylim ax)) ->
  latlon_ticks tr ax = latlon_ticks tr' ax.
Proof. intros H0 H1. unfold latlon_ticks. now rewrite H0, H1. Qed.



(** ** Too few points *)




(** * Further properties of the plotting functions *)

(** ** What a call of [plot_route] or [plot_trajectory] returns *)

Lemma latlon_ticks_forgets_ticks (tr : Q -> Q -> Q * Q) a xl yl t1 t2 t3 t4 u1 u2 u3 u4 :
  latlon_ticks tr (mkAxes a xl yl t1 t2 t3 t4) = latlon_ticks tr (mkAxes a xl yl u1 u2 u3 u4).
Proof.
  unfold latlon_ticks; simpl.
  destruct (tr (fst xl) (fst yl)), (tr (snd xl) (snd yl)). reflexivity.
Qed.

(** The axes returned for an input that carries the attributes [st]. *)
Lemma plot_as_result tr tb (k : kind) (df : list Row) (ax : Axes) (st : ExtentAttrs) :
  attrs ax = Some st ->
  exists e,
    update_bounds st (feature_bounds tb df) = attrs_of e /\
    plot_as tr tb k df (Some ax)
    = Ok (latlon_ticks tr
            (mkAxes (Some (attrs_of e)) (fst (limits_of (padding k) e))
                    (snd (limits_of (padding k) e)) [] [] [] [])).
Proof.
  intros Hst.
  destruct (update_bounds_some st (feature_bounds tb df)) as [e He].
  exists e. split; [exact He|].
  unfold feature_bounds in He.
  destruct k; unfold plot_as, plot_route, plot_trajectory, get_attrs; simpl;
    rewrite Hst; simpl; rewrite He, padded_limits_full; simpl;
    unfold apply_limits, set_ylim, set_xlim, set_attrs; simpl;
    apply f_equal, latlon_ticks_forgets_ticks.
Qed.

Lemma plot_as_new tr tb (k : kind) (df : list Row) :
  plot_as tr tb k df None = plot_as tr tb k df (Some (set_attrs subplots no_extent)).
Proof. destruct k; reflexivity. Qed.

Lemma plot_as_foreign tr tb (k : kind) (df : list Row) (ax : Axes) :
  attrs ax = None -> plot_as tr tb k df (Some ax) = Raise Py.AttributeError.
Proof.
  intros H. destruct k; unfold plot_as, plot_route, plot_trajectory, get_attrs; simpl;
    now rewrite H.
Qed.

Lemma plot_airspace_attrs tr tb av (df : list Row) (s : string) (ax : option Axes) (a : Axes) :
  plot_airspace tr tb av df s ax = Ok a ->
  attrs a = match ax with Some a0 => attrs a0 | None => None end.
Proof.
  unfold plot_airspace.
  destruct (List.length (sort_values Sequence_Number (airspace_subset df s)) <? 3)%nat;
    [discriminate|].
  match goal with
  | |- context [if ?c then _ else _] => destruct c
  end; intros [= <-]; rewrite latlon_ticks_attrs; destruct ax; reflexivity.
Qed.

(** X1.  [plot_route] and [plot_trajectory] read [ax._xmin] without a
    fallback: handed an axes that never got the attributes they raise
    [AttributeError].  The axes that [plot_airspace] creates and the map
    axes of [plot_flight_trajectory_events] are such axes. *)
Theorem overlay_on_foreign_axes_raises :
  forall tr tb (k : kind) (df : list Row),
    (forall ax, attrs ax = None ->
                plot_as tr tb k df (Some ax) = Raise Py.AttributeError) /\
    (forall av dfa s a,
        plot_airspace tr tb av dfa s None = Ok a ->
        plot_as tr tb k df (Some a) = Raise Py.AttributeError) /\
    (forall events flight a,
        value (plot_flight_trajectory_events tr tb events flight) = Ok (Some a) ->
        plot_as tr tb k df (Some a) = Raise Py.AttributeError).
Proof.
  intros tr tb k df. split; [|split].
  - intros ax H. now apply plot_as_foreign.
  - intros av dfa s a H. apply plot_as_foreign.
    now rewrite (plot_airspace_attrs _ _ _ _ _ _ _ H).
  - intros events flight a H. apply plot_as_foreign.
    unfold plot_flight_trajectory_events in H.
    destruct (flight_events events flight); simpl in H; [discriminate|].
    injection H as <-. now rewrite latlon_ticks_attrs.
Qed.

Lemma overlay_on_foreign_axes_raises_witness :
  exists a,
    plot_airspace plain_transform plain_bounds no_autoscale triangle_a EmptyString None
    = Ok a /\
    plot_as plain_transform plain_bounds Route route_a (Some a) = Raise Py.AttributeError.
Proof.
  eexists. split; [reflexivity|].
  destruct (overlay_on_foreign_axes_raises plain_transform plain_bounds Route route_a)
    as (_ & H & _).
  apply (H no_autoscale triangle_a EmptyString). reflexivity.
Defined.

(** X2.  [plot_airspace] never touches the extent attributes, and a later
    [plot_route] or [plot_trajectory] sets limits, ticks and labels from
    the attributes alone: drawn on the axes after [plot_airspace], it
    returns the very axes it would have returned without that call, so the
    polygon's box plays no part in the view. *)
Theorem airspace_not_tracked :
  forall tr tb av dfa s ax a,
    plot_airspace tr tb av dfa s (Some ax) = Ok a ->
    attrs a = attrs ax /\
    forall (k : kind) (df : list Row),
      plot_as tr tb k df (Some a) = plot_as tr tb k df (Some ax).
Proof.
  intros tr tb av dfa s ax a H.
  pose proof (plot_airspace_attrs _ _ _ _ _ _ _ H) as Ha. simpl in Ha.
  split; [exact Ha|]. intros k df.
  destruct (attrs ax) as [st|] eqn:E.
  - destruct (plot_as_result tr tb k df a st Ha) as (e & He & ->).
    destruct (plot_as_result tr tb k df ax st E) as (e' & He' & ->).
    rewrite He in He'. assert (e = e').
    { destruct e, e'. unfold attrs_of in He'; simpl in He'. now inversion He'. }
    now subst.
  - now rewrite !plot_as_foreign.
Qed.

Lemma airspace_not_tracked_witness :
  exists ax a,
    plot_route plain_transform plain_bounds route_b None = Ok ax /\
    plot_airspace plain_transform plain_bounds no_autoscale triangle_a EmptyString (Some ax)
    = Ok a /\
    attrs a = attrs ax /\
    plot_as plain_transform plain_bounds Trajectory route_b (Some a)
    = plot_as plain_transform plain_bounds Trajectory route_b (Some ax).
Proof.
  eexists. eexists. split; [reflexivity|]. split; [reflexivity|].
  match goal with
  | |- attrs ?a = attrs ?ax /\ _ =>
      destruct (airspace_not_tracked plain_transform plain_bounds no_autoscale
                  triangle_a EmptyString ax a eq_refl) as [H1 H2]
  end.
  split; [exact H1|]. apply H2.
Defined.

(** ** Drawing the same feature again *)

Lemma py_min_same (a : Q) : Py.min a a = a.
Proof. unfold Py.min. destruct (a ?= a); reflexivity. Qed.

Lemma py_max_same (a : Q) : Py.max a a = a.
Proof. unfold Py.max. destruct (a ?= a); reflexivity. Qed.

Lemma first_or_again (f : Q -> Q -> Q) (o : option Q) (x : Q) :
  (forall a b, f a b = a \/ f a b = b) -> (forall a, f a a = a) ->
  first_or f (first_or f o x) x = first_or f o x.
Proof.
  intros Hc Hs. destruct o as [v|]; simpl; [|now rewrite Hs].
  destruct (Hc v x) as [E|E]; rewrite E; [now rewrite E|now rewrite Hs].
Qed.

Lemma update_bounds_again (st : ExtentAttrs) (b : Bounds) :
  update_bounds (update_bounds st b) b = update_bounds st b.
Proof.
  rewrite !update_bounds_fields; simpl.
  now rewrite !first_or_again
    by auto using py_min_cases, py_max_cases, py_min_same, py_max_same.
Qed.

Lemma attrs_of_inj (e e' : Bounds) : attrs_of e = attrs_of e' -> e = e'.
Proof. destruct e, e'. unfold attrs_of; simpl. now intros [= -> -> -> ->]. Qed.

(** X3.  Drawing the same frame a second time on the axes a call
    returned changes nothing: [plot_route] (and [plot_trajectory]) hands
    back the same attributes, limits, ticks and labels. *)
Theorem replot_changes_nothing :
  forall tr tb (k : kind) (df : list Row) (ax0 : option Axes) (ax1 : Axes),
    plot_as tr tb k df ax0 = Ok ax1 ->
    plot_as tr tb k df (Some ax1) = Ok ax1.
Proof.
  intros tr tb k df ax0 ax1 H.
  assert (G : forall ax st, attrs ax = Some st ->
                            plot_as tr tb k df (Some ax) = Ok ax1 ->
                            plot_as tr tb k df (Some ax1) = Ok ax1).
  { clear H ax0. intros ax st Hst H.
    destruct (plot_as_result tr tb k df ax st Hst) as (e & He & R).
    rewrite R in H. injection H as <-.
    match goal with
    | |- plot_as _ _ _ _ (Some ?a) = _ =>
        destruct (plot_as_result tr tb k df a (attrs_of e)) as (e' & He' & ->)
    end.
    { now rewrite latlon_ticks_attrs. }
    rewrite <- He, update_bounds_again, He in He'.
    now rewrite (attrs_of_inj _ _ He'). }
  destruct ax0 as [ax|].
  - destruct (attrs ax) as [st|] eqn:E.
    + now apply (G ax st).
    + rewrite plot_as_foreign in H by exact E. discriminate H.
  - rewrite plot_as_new in H.
    now apply (G (set_attrs subplots no_extent) no_extent).
Qed.

Lemma replot_changes_nothing_witness :
  exists ax1,
    plot_as plain_transform plain_bounds Route route_a None = Ok ax1 /\
    plot_as plain_transform plain_bounds Route route_a (Some ax1) = Ok ax1.
Proof.
  eexists. split; [reflexivity|].
  apply (replot_changes_nothing plain_transform plain_bounds Route route_a None).
  reflexivity.
Defined.

(** ** Successions of calls of both functions *)

Lemma inside_refl (b : Bounds) : inside b b.
Proof. unfold inside. repeat split; apply Qle_refl. Qed.

Lemma inside_trans (a b c : Bounds) : inside a b -> inside b c -> inside a c.
Proof.
  unfold inside. intros (A1 & A2 & A3 & A4) (B1 & B2 & B3 & B4).
  repeat split; eapply Qle_trans; eassumption.
Qed.

(** Merging more boxes keeps what was merged before and takes in every
    new box. *)
Lemma fold_update_contains (bs : list Bounds) :
  forall e0,
  exists e,
    fold_left update_bounds bs (attrs_of e0) = attrs_of e /\
    inside e0 e /\ Forall (fun b => inside b e) bs /\
    (nondegenerate e0 -> nondegenerate e).
Proof.
  induction bs as [|b bs IH]; intros e0; simpl.
  - exists e0. split; [reflexivity|]. split; [apply inside_refl|]. split; [constructor|auto].
  - rewrite update_bounds_full.
    destruct (IH (merge (Some e0) b)) as (e & He & Hin & Hall & Hnd).
    exists e. split; [exact He|]. split; [|split].
    + eapply inside_trans; [apply merge_contains_old|exact Hin].
    + constructor; [|exact Hall].
      eapply inside_trans; [apply merge_contains_new|exact Hin].
    + intros H. apply Hnd. now apply merge_nondegenerate.
Qed.

Lemma merge_all_contains (b : Bounds) (bs : list Bounds) :
  exists e,
    merge_all (b :: bs) = attrs_of e /\
    Forall (fun b' => inside b' e) (b :: bs) /\
    (nondegenerate b -> nondegenerate e).
Proof.
  unfold merge_all; simpl. rewrite update_bounds_empty.
  destruct (fold_update_contains bs b) as (e & He & Hin & Hall & Hnd).
  exists e. split; [exact He|]. split; [|exact Hnd]. now constructor.
Qed.

Lemma latlon_ticks_limits (tr : Q -> Q -> Q * Q) (ax : Axes) :
  (xlim (latlon_ticks tr ax), ylim (latlon_ticks tr ax)) = (xlim ax, ylim ax).
Proof.
  unfold latlon_ticks.
  destruct (tr (fst (xlim ax)) (fst (ylim ax))), (tr (snd (xlim ax)) (snd (ylim ax))).
  reflexivity.
Qed.

(** The axes after a succession of calls that ends with a call of kind
    [k]: the attributes are the merge of all feature boxes, the limits
    are padded with the literal of the last call. *)
Lemma overlay_mixed_onto tr tb (calls : list (kind * list Row)) :
  forall (k : kind) (df : list Row) (ax : Axes) (st : ExtentAttrs),
    attrs ax = Some st ->
    exists ax' e,
      overlay_mixed tr tb (calls ++ [(k, df)]) (Some ax) = Ok (Some ax') /\
      fold_left update_bounds (call_bounds tb (calls ++ [(k, df)])) st = attrs_of e /\
      attrs ax' = Some (attrs_of e) /\
      (xlim ax', ylim ax') = limits_of (padding k) e.
Proof.
  induction calls as [|[k0 df0] calls IH]; intros k df ax st Hst.
  - destruct (plot_as_result tr tb k df ax st Hst) as (e & He & R).
    eexists _, e. simpl. rewrite R. simpl.
    split; [reflexivity|]. split; [exact He|].
    rewrite latlon_ticks_attrs. split; [reflexivity|].
    now rewrite latlon_ticks_limits.
  - destruct (plot_as_result tr tb k0 df0 ax st Hst) as (e0 & He0 & R).
    simpl. rewrite R. simpl. rewrite He0.
    apply IH. now rewrite latlon_ticks_attrs.
Qed.

Lemma overlay_mixed_new tr tb (calls : list (kind * list Row)) (k : kind) (df : list Row) :
  exists ax' e,
    overlay_mixed tr tb (calls ++ [(k, df)]) None = Ok (Some ax') /\
    merge_all (call_bounds tb (calls ++ [(k, df)])) = attrs_of e /\
    attrs ax' = Some (attrs_of e) /\
    (xlim ax', ylim ax') = limits_of (padding k) e.
Proof.
  destruct (overlay_mixed_onto tr tb calls k df (set_attrs subplots no_extent) no_extent
              eq_refl) as (ax' & e & H).
  exists ax', e.
  destruct calls as [|[k0 df0] calls]; simpl in *; rewrite plot_as_new; exact H.
Qed.

Lemma limits_of_expand (p : Q) (e : Bounds) : Bounds_eq (window (limits_of p e)) (expand p e).
Proof. unfold Bounds_eq, window, limits_of, expand; simpl. repeat split; ring. Qed.

Lemma inside_compat (a a' b b' : Bounds) :
  Bounds_eq a a' -> Bounds_eq b b' -> inside a b -> inside a' b'.
Proof.
  unfold Bounds_eq, inside.
  intros (A1 & A2 & A3 & A4) (B1 & B2 & B3 & B4) (H1 & H2 & H3 & H4).
  rewrite <- A1, <- A2, <- A3, <- A4, <- B1, <- B2, <- B3, <- B4. tauto.
Qed.

Lemma Bounds_eq_refl (a : Bounds) : Bounds_eq a a.
Proof. unfold Bounds_eq. repeat split; reflexivity. Qed.

Lemma Bounds_eq_sym (a b : Bounds) : Bounds_eq a b -> Bounds_eq b a.
Proof. unfold Bounds_eq. intros (A & B & C & D). repeat split; now symmetry. Qed.

(** A non-degenerate extent lies within its padded window, for a padding
    that is not negative. *)
Lemma expand_contains (p : Q) (e : Bounds) :
  0 <= p -> nondegenerate e -> inside e (expand p e).
Proof.
  intros Hp [Hx Hy]. unfold inside, expand; simpl.
  assert (Wx : 0 <= p * (maxx e - minx e)) by (apply Qmult_le_0_compat; lra).
  assert (Wy : 0 <= p * (maxy e - miny e)) by (apply Qmult_le_0_compat; lra).
  repeat split; lra.
Qed.

Lemma padding_nonneg (k : kind) : 0 <= padding k.
Proof. destruct k; discriminate. Qed.

Lemma plot_as_view tr tb (k : kind) (df : list Row) (ax : Axes) (st : ExtentAttrs) :
  attrs ax = Some st ->
  exists ax' e,
    plot_as tr tb k df (Some ax) = Ok ax' /\
    update_bounds st (feature_bounds tb df) = attrs_of e /\
    attrs ax' = Some (attrs_of e) /\
    Bounds_eq (view ax') (expand (padding k) e).
Proof.
  intros Hst. destruct (plot_as_result tr tb k df ax st Hst) as (e & He & R).
  eexists _, e. split; [exact R|]. split; [exact He|].
  rewrite latlon_ticks_attrs, latlon_ticks_view. split; [reflexivity|].
  apply limits_of_expand.
Qed.

Lemma call_bounds_snoc tb (calls : list (kind * list Row)) (k : kind) (df : list Row) :
  exists b bs, call_bounds tb (calls ++ [(k, df)]) = b :: bs.
Proof.
  unfold call_bounds. destruct calls as [|c calls]; simpl; eauto.
Qed.




(** Growing the extent and the padding grows the window. *)
Lemma expand_monotone (p q : Q) (e e' : Bounds) :
  0 <= p -> p <= q -> nondegenerate e -> inside e e' ->
  inside (expand p e) (expand q e').
Proof.
  intros Hp Hpq [Hx Hy] (A & B & C & D). unfold inside, expand; simpl.
  assert (Wx : p * (maxx e - minx e) <= q * (maxx e' - minx e')).
  { apply Qle_trans with (q * (maxx e - minx e)).
    - apply Qmult_le_compat_r; lra.
    - rewrite !(Qmult_comm q). apply Qmult_le_compat_r; lra. }
  assert (Wy : p * (maxy e - miny e) <= q * (maxy e' - miny e')).
  { apply Qle_trans with (q * (maxy e - miny e)).
    - apply Qmult_le_compat_r; lra.
    - rewrite !(Qmult_comm q). apply Qmult_le_compat_r; lra. }
  repeat split; lra.
Qed.



(** ** [plot_airspace] and the limits the axes shows *)

Lemma limits_differ_pair (p : Q * Q) (lo hi : Q) :
  limits_differ (fst p, snd p) lo hi = limits_differ p lo hi.
Proof. reflexivity. Qed.

(** The call of [plot_airspace] on a frame that passes the guard, with the
    limits it sets spelled out. *)
Lemma plot_airspace_view tr tb av (df : list Row) (s : string) (ax : option Axes) :
  (3 <= List.length (airspace_subset df s))%nat ->
  let polygon := lon_lat (sort_values Sequence_Number (airspace_subset df s)) in
  let b := tb polygon in
  let ax0 := match ax with None => subplots | Some a => a end in
  let shown := av (xlim ax0, ylim ax0) polygon in
  exists ax' xmin ymin xmax ymax,
    plot_airspace tr tb av df s ax = Ok ax' /\
    view ax' = mkBounds (xmin - (xmax - xmin) * 0.2) (ymin - (ymax - ymin) * 0.2)
                        (xmax + (xmax - xmin) * 0.2) (ymax + (ymax - ymin) * 0.2) /\
    (limits_differ (fst shown) 0 1 || limits_differ (snd shown) 0 1 = true ->
     xmin = Py.min (fst (fst shown)) (minx b) /\ ymin = Py.min (fst (snd shown)) (miny b) /\
     xmax = Py.max (snd (fst shown)) (maxx b) /\ ymax = Py.max (snd (snd shown)) (maxy b)) /\
    (limits_differ (fst shown) 0 1 || limits_differ (snd shown) 0 1 = false ->
     xmin = minx b /\ ymin = miny b /\ xmax = maxx b /\ ymax = maxy b).
Proof.
  intros H polygon b ax0 shown. unfold plot_airspace. rewrite sort_values_length.
  destruct (Nat.ltb_spec (List.length (airspace_subset df s)) 3) as [C|_]; [lia|].
  fold polygon. fold ax0. fold shown. fold b. simpl.
  rewrite !limits_differ_pair.
  destruct (limits_differ (fst shown) 0 1 || limits_differ (snd shown) 0 1) eqn:E.
  - eexists _, (Py.min (fst (fst shown)) (minx b)), (Py.min (fst (snd shown)) (miny b)),
      (Py.max (snd (fst shown)) (maxx b)), (Py.max (snd (snd shown)) (maxy b)).
    split; [reflexivity|]. rewrite latlon_ticks_view.
    split; [reflexivity|]. split; [auto|discriminate].
  - eexists _, (minx b), (miny b), (maxx b), (maxy b).
    split; [reflexivity|]. rewrite latlon_ticks_view.
    split; [reflexivity|]. split; [discriminate|auto].
Qed.

(** X7.  "Combine them so we don't shrink the view": for a polygon with a
    non-degenerate box, the limits [plot_airspace] sets contain the box,
    and contain the limits the axes showed after the polygon was drawn
    unless those are exactly the defaults [(0, 1)], [(0, 1)]; in that case
    the shown limits are dropped and the view is the box padded by 0.2. *)
Theorem plot_airspace_keeps_view :
  forall tr tb av (df : list Row) (s : string) (ax : option Axes),
    (3 <= List.length (airspace_subset df s))%nat ->
    let polygon := lon_lat (sort_values Sequence_Number (airspace_subset df s)) in
    let b := tb polygon in
    let ax0 := match ax with None => subplots | Some a => a end in
    let shown := av (xlim ax0, ylim ax0) polygon in
    nondegenerate b ->
    exists ax',
      plot_airspace tr tb av df s ax = Ok ax' /\
      inside b (view ax') /\
      (limits_differ (fst shown) 0 1 || limits_differ (snd shown) 0 1 = true ->
       inside (window shown) (view ax')) /\
      (limits_differ (fst shown) 0 1 || limits_differ (snd shown) 0 1 = false ->
       Bounds_eq (view ax') (expand 0.2 b)).
Proof.
  intros tr tb av df s ax H polygon b ax0 shown [Hx Hy].
  destruct (plot_airspace_view tr tb av df s ax H)
    as (ax' & xmin & ymin & xmax & ymax & R & V & Hm & Hd).
  fold polygon in Hm, Hd. fold b in Hm, Hd. fold ax0 in Hm, Hd. fold shown in Hm, Hd.
  exists ax'. split; [exact R|]. rewrite V. unfold inside, Bounds_eq, expand, window; simpl.
  destruct (limits_differ (fst shown) 0 1 || limits_differ (snd shown) 0 1).
  - destruct (Hm eq_refl) as (-> & -> & -> & ->).
    pose proof (py_min_le_l (fst (fst shown)) (minx b)).
    pose proof (py_min_le_r (fst (fst shown)) (minx b)).
    pose proof (py_min_le_l (fst (snd shown)) (miny b)).
    pose proof (py_min_le_r (fst (snd shown)) (miny b)).
    pose proof (py_max_ge_l (snd (fst shown)) (maxx b)).
    pose proof (py_max_ge_r (snd (fst shown)) (maxx b)).
    pose proof (py_max_ge_l (snd (snd shown)) (maxy b)).
    pose proof (py_max_ge_r (snd (snd shown)) (maxy b)).
    split; [repeat split; lra|]. split; [|discriminate].
    intros _. repeat split; lra.
  - destruct (Hd eq_refl) as (-> & -> & -> & ->).
    split; [repeat split; lra|]. split; [discriminate|].
    intros _. repeat split; ring.
Qed.

Lemma plot_airspace_keeps_view_witness :
  exists ax',
    plot_airspace plain_transform plain_bounds no_autoscale triangle_a EmptyString None
    = Ok ax' /\
    inside (mkBounds 0 0 10 5) (view ax').
Proof.
  destruct (plot_airspace_keeps_view plain_transform plain_bounds no_autoscale
              triangle_a EmptyString None) as (ax' & R & H & _).
  - simpl. lia.
  - split; simpl; unfold Qle; simpl; lia.
  - exists ax'. split; [exact R|exact H].
Defined.

(** X8.  No extent is kept apart from the limits, so the padding
    compounds: when the axes shows limits other than the defaults, drawing
    leaves them alone, and the polygon's box lies within them, the new
    limits are the shown ones padded by 0.2 once more.  Unlike
    [plot_route], drawing the same airspace again widens the view. *)
Theorem plot_airspace_redraw_widens :
  forall tr tb av (df : list Row) (s : string) (a : Axes),
    (3 <= List.length (airspace_subset df s))%nat ->
    let polygon := lon_lat (sort_values Sequence_Number (airspace_subset df s)) in
    av (xlim a, ylim a) polygon = (xlim a, ylim a) ->
    limits_differ (xlim a) 0 1 || limits_differ (ylim a) 0 1 = true ->
    inside (tb polygon) (view a) ->
    exists ax',
      plot_airspace tr tb av df s (Some a) = Ok ax' /\
      Bounds_eq (view ax') (expand 0.2 (view a)) /\
      (minx (view a) < maxx (view a) ->
       minx (view ax') < minx (view a) /\ maxx (view a) < maxx (view ax')).
Proof.
  intros tr tb av df s a H polygon Hav Hd (A & B & C & D).
  destruct (plot_airspace_view tr tb av df s (Some a) H)
    as (ax' & xmin & ymin & xmax & ymax & R & V & Hm & _).
  fold polygon in Hm. rewrite Hav in Hm. simpl in Hm.
  destruct (Hm Hd) as (E1 & E2 & E3 & E4).
  unfold view, window in A, B, C, D; simpl in A, B, C, D.
  rewrite py_min_keep in E1, E2 by assumption.
  rewrite py_max_keep in E3, E4 by assumption.
  subst xmin ymin xmax ymax.
  exists ax'. split; [exact R|]. rewrite V.
  unfold Bounds_eq, expand, view, window; simpl.
  split; [repeat split; ring|]. intros Hw. split; lra.
Qed.

Lemma plot_airspace_redraw_widens_witness :
  exists a ax',
    plot_airspace plain_transform plain_bounds no_autoscale triangle_a EmptyString None
    = Ok a /\
    plot_airspace plain_transform plain_bounds no_autoscale triangle_a EmptyString (Some a)
    = Ok ax' /\
    Bounds_eq (view ax') (expand 0.2 (view a)) /\
    minx (view ax') < minx (view a).
Proof.
  destruct (plot_airspace plain_transform plain_bounds no_autoscale triangle_a
              EmptyString None) as [a|x] eqn:E; [|discriminate E].
  assert (Hv : view a = mkBounds (0 - (10 - 0) * 0.2) (0 - (5 - 0) * 0.2)
                                 (10 + (10 - 0) * 0.2) (5 + (5 - 0) * 0.2)).
  { vm_compute in E. injection E as <-. reflexivity. }
  destruct (plot_airspace_redraw_widens plain_transform plain_bounds no_autoscale
              triangle_a EmptyString a) as (ax' & R & H1 & H2).
  - simpl. lia.
  - reflexivity.
  - vm_compute in E. injection E as <-. reflexivity.
  - rewrite Hv. repeat split; simpl; unfold Qle; simpl; lia.
  - exists a, ax'. split; [reflexivity|]. split; [exact R|]. split; [exact H1|].
    apply H2. rewrite Hv. reflexivity.
Defined.

(** ** The order of the rows in a frame *)

Section Sorting.

Variable A : Type.
Variable key : A -> Z.

Lemma insert_by_perm (x : A) (l : list A) : Permutation (insert_by key x l) (x :: l).
Proof.
  induction l as [|y l IH]; simpl; [apply Permutation_refl|].
  destruct (key x <=? key y)%Z; [apply Permutation_refl|].
  apply Permutation_trans with (y :: x :: l); [now apply perm_skip|apply perm_swap].
Qed.

Lemma sort_values_perm (l : list A) : Permutation (sort_values key l) l.
Proof.
  induction l as [|x l IH]; simpl; [apply perm_nil|].
  apply Permutation_trans with (x :: sort_values key l);
    [apply insert_by_perm|now apply perm_skip].
Qed.

Lemma insert_by_sorted (x : A) (l : list A) :
  StronglySorted (fun a b : A => (key a <= key b)%Z) l -> StronglySorted (fun a b : A => (key a <= key b)%Z) (insert_by key x l).
Proof.
  induction 1 as [|y l Hs IH Hy]; simpl.
  - repeat constructor.
  - destruct (Z.leb_spec (key x) (key y)) as [C|C].
    + constructor; [now constructor|].
      constructor; [exact C|].
      rewrite Forall_forall in *. intros z Hz.
      specialize (Hy z Hz). simpl in Hy. lia.
    + constructor; [exact IH|].
      rewrite Forall_forall in *. intros z Hz.
      apply (Permutation_in z (insert_by_perm x l)) in Hz.
      destruct Hz as [<-|Hz]; [lia|now apply Hy].
Qed.

Lemma sort_values_sorted (l : list A) : StronglySorted (fun a b : A => (key a <= key b)%Z) (sort_values key l).
Proof.
  induction l as [|x l IH]; simpl; [constructor|now apply insert_by_sorted].
Qed.

(** Two ascending arrangements of the same rows are the same list when no
    two rows share a key. *)
Lemma sorted_perm_unique (l1 : list A) :
  forall l2,
    StronglySorted (fun a b : A => (key a <= key b)%Z) l1 -> StronglySorted (fun a b : A => (key a <= key b)%Z) l2 ->
    Permutation l1 l2 -> NoDup (map key l1) -> l1 = l2.
Proof.
  induction l1 as [|a l1 IH]; intros l2 S1 S2 P N.
  - now apply Permutation_nil in P.
  - destruct l2 as [|b l2]; [apply Permutation_sym, Permutation_nil in P; discriminate|].
    inversion S1 as [|? ? S1' F1]; subst. inversion S2 as [|? ? S2' F2]; subst.
    inversion N as [|? ? Na N']; subst.
    assert (E : a = b).
    { assert (Ia : In a (b :: l2)) by (apply (Permutation_in a P); now left).
      assert (Ib : In b (a :: l1))
        by (apply (Permutation_in b (Permutation_sym P)); now left).
      destruct Ia as [->|Ia]; [reflexivity|].
      destruct Ib as [Ib|Ib]; [exact Ib|].
      rewrite Forall_forall in F1, F2.
      specialize (F1 b Ib). specialize (F2 a Ia). simpl in F1, F2.
      exfalso. apply Na. replace (key a) with (key b) by lia.
      now apply in_map. }
    subst b. f_equal. apply IH; try assumption.
    now apply Permutation_cons_inv in P.
Qed.

Lemma sort_values_input_order (l l' : list A) :
  Permutation l l' -> NoDup (map key l) -> sort_values key l = sort_values key l'.
Proof.
  intros P N. apply sorted_perm_unique; try apply sort_values_sorted.
  - apply Permutation_trans with l; [apply sort_values_perm|].
    apply Permutation_trans with l'; [exact P|apply Permutation_sym, sort_values_perm].
  - apply (Permutation_NoDup (l := map key l)); [|exact N].
    apply Permutation_map, Permutation_sym, sort_values_perm.
Qed.

Lemma filter_perm (f : A -> bool) (l l' : list A) :
  Permutation l l' -> Permutation (filter f l) (filter f l').
Proof.
  induction 1 as [|x l l' _ IH|x y l|l l' l'' _ IH1 _ IH2]; simpl.
  - apply perm_nil.
  - destruct (f x); [now apply perm_skip|exact IH].
  - destruct (f x), (f y); try apply Permutation_refl. apply perm_swap.
  - now apply Permutation_trans with (filter f l').
Qed.

Lemma filter_keys_nodup (f : A -> bool) (l : list A) :
  NoDup (map key l) -> NoDup (map key (filter f l)).
Proof.
  induction l as [|x l IH]; simpl; intros N; [constructor|].
  inversion N as [|? ? Nx N']; subst.
  destruct (f x); simpl; [|now apply IH].
  constructor; [|now apply IH].
  intros H. apply Nx. apply in_map_iff in H. destruct H as (y & Ey & Hy).
  apply filter_In in Hy. rewrite <- Ey. apply in_map. tauto.
Qed.

End Sorting.

(** X9.  The functions sort their frame by "Sequence Number" before they
    build the geometry, so when no two rows of the frame share a sequence
    number the order of the rows does not matter: [plot_route],
    [plot_trajectory] and [plot_airspace] return the same result for any
    rearrangement of the rows, and the vertices go to the geometry in
    ascending sequence order. *)
Theorem row_order_irrelevant :
  forall tr tb av (df df' : list Row),
    Permutation df df' ->
    NoDup (map Sequence_Number df) ->
    StronglySorted (fun a b => (Sequence_Number a <= Sequence_Number b)%Z)
                   (sort_values Sequence_Number df) /\
    Permutation (sort_values Sequence_Number df) df /\
    (forall ax, plot_route tr tb df ax = plot_route tr tb df' ax) /\
    (forall ax, plot_trajectory tr tb df ax = plot_trajectory tr tb df' ax) /\
    (forall s ax, plot_airspace tr tb av df s ax = plot_airspace tr tb av df' s ax).
Proof.
  intros tr tb av df df' P N.
  split; [apply sort_values_sorted|]. split; [apply sort_values_perm|].
  pose proof (sort_values_input_order Row Sequence_Number df df' P N) as E.
  split; [|split].
  - intros ax. unfold plot_route. now rewrite E.
  - intros ax. unfold plot_trajectory. now rewrite E.
  - intros s ax. unfold plot_airspace.
    assert (E' : sort_values Sequence_Number (airspace_subset df s)
                 = sort_values Sequence_Number (airspace_subset df' s)).
    { apply sort_values_input_order.
      - unfold airspace_subset. destruct (Py.truthy s); [now apply filter_perm|exact P].
      - unfold airspace_subset. destruct (Py.truthy s); [now apply filter_keys_nodup|exact N]. }
    now rewrite E'.
Qed.

Lemma row_order_irrelevant_witness :
  plot_route plain_transform plain_bounds route_a None
  = plot_route plain_transform plain_bounds route_a_shuffled None.
Proof.
  destruct (row_order_irrelevant plain_transform plain_bounds no_autoscale
              route_a route_a_shuffled) as (_ & _ & H & _).
  - apply perm_swap.
  - repeat constructor; simpl; intuition discriminate.
  - apply H.
Defined.

(** ** More on ticks and labels *)

Lemma sample_compat (a a' b b' : Q) (i : nat) :
  a == a' -> b == b' -> sample a b 6 i == sample a' b' 6 i.
Proof. intros Ha Hb. unfold sample. now rewrite Ha, Hb. Qed.

Lemma sample_affine (m c a b : Q) (i : nat) :
  sample (m * a + c) (m * b + c) 6 i == m * sample a b 6 i + c.
Proof. unfold sample; simpl. field. Qed.



Lemma padded_point (x p : Q) : x - (x - x) * p = x + (x - x) * p.
Proof.
  destruct x as [n d], p as [pn pd].
  unfold Qminus, Qplus, Qopp, Qmult; simpl. f_equal. ring.
Qed.

Lemma padded_point_value (x p : Q) : x - (x - x) * p == x.
Proof. ring. Qed.



Lemma sample_step (a b : Q) :
  (a <= b -> 0 <= (b - a) / inject_Z 5) /\
  (a < b -> 0 < (b - a) / inject_Z 5) /\
  a + 5 * ((b - a) / inject_Z 5) == b.
Proof.
  split; [|split].
  - intros H. apply Qle_shift_div_l; [reflexivity|]. lra.
  - intros H. apply Qlt_shift_div_l; [reflexivity|]. lra.
  - unfold inject_Z. field.
Qed.

Lemma sample_monotone (a b : Q) (i j : nat) :
  a <= b -> (i <= j)%nat -> (j < 6)%nat ->
  a <= sample a b 6 i /\ sample a b 6 i <= sample a b 6 j /\ sample a b 6 j <= b.
Proof.
  intros Hab Hij Hj. destruct (sample_step a b) as (W & _ & E). specialize (W Hab).
  unfold sample. simpl Nat.sub. simpl Z.of_nat.
  set (w := (b - a) / inject_Z 5) in *. clearbody w.
  do 6 (destruct j as [|j];
        [do 6 (destruct i as [|i]; [try lia; simpl; unfold inject_Z; lra|]); lia|]).
  lia.
Qed.

Lemma sample_strict (a b : Q) (i j : nat) :
  a < b -> (i < j)%nat -> (j < 6)%nat -> sample a b 6 i < sample a b 6 j.
Proof.
  intros Hab Hij Hj. destruct (sample_step a b) as (_ & W & E). specialize (W Hab).
  unfold sample. simpl Nat.sub. simpl Z.of_nat.
  set (w := (b - a) / inject_Z 5) in *. clearbody w.
  do 6 (destruct j as [|j];
        [do 6 (destruct i as [|i]; [try lia; simpl; unfold inject_Z; lra|]); lia|]).
  lia.
Qed.

(** X12.  On an axes whose lower limits do not exceed the upper ones, the
    tick positions set by the relabelling lie within the limits and go up
    with their index, strictly so when the axis has positive width. *)
Theorem ticks_ascend_within_limits :
  forall tr (ax : Axes) (i j : nat),
    (i <= j)%nat -> (j < 6)%nat ->
    (fst (xlim ax) <= snd (xlim ax) ->
     fst (xlim ax) <= nth i (xticks (latlon_ticks tr ax)) 0 /\
     nth i (xticks (latlon_ticks tr ax)) 0 <= nth j (xticks (latlon_ticks tr ax)) 0 /\
     nth j (xticks (latlon_ticks tr ax)) 0 <= snd (xlim ax)) /\
    (fst (ylim ax) <= snd (ylim ax) ->
     fst (ylim ax) <= nth i (yticks (latlon_ticks tr ax)) 0 /\
     nth i (yticks (latlon_ticks tr ax)) 0 <= nth j (yticks (latlon_ticks tr ax)) 0 /\
     nth j (yticks (latlon_ticks tr ax)) 0 <= snd (ylim ax)) /\
    (fst (xlim ax) < snd (xlim ax) -> (i < j)%nat ->
     nth i (xticks (latlon_ticks tr ax)) 0 < nth j (xticks (latlon_ticks tr ax)) 0) /\
    (fst (ylim ax) < snd (ylim ax) -> (i < j)%nat ->
     nth i (yticks (latlon_ticks tr ax)) 0 < nth j (yticks (latlon_ticks tr ax)) 0).
Proof.
  intros tr ax i j Hij Hj.
  destruct (latlon_ticks_fields tr ax) as (Hx & Hy & _ & _).
  rewrite Hx, Hy.
  assert (Hi : (i < 6)%nat) by lia.
  rewrite !(linspace_6_nth _ _ i Hi), !(linspace_6_nth _ _ j Hj).
  split; [|split; [|split]].
  - intros H. now apply sample_monotone.
  - intros H. now apply sample_monotone.
  - intros H Hlt. now apply sample_strict.
  - intros H Hlt. now apply sample_strict.
Qed.

Lemma ticks_ascend_within_limits_witness :
  let ax := set_ylim (set_xlim subplots (-3) 18) 4 4 in
  nth 1 (xticks (latlon_ticks plain_transform ax)) 0
  < nth 4 (xticks (latlon_ticks plain_transform ax)) 0 /\
  nth 4 (yticks (latlon_ticks plain_transform ax)) 0 <= 4.
Proof.
  intros ax.
  destruct (ticks_ascend_within_limits plain_transform ax 1 4) as (_ & Hy & Hx & _);
    try lia.
  split.
  - apply Hx; [reflexivity|lia].
  - apply Hy. simpl. unfold Qle; simpl; lia.
Defined.

(** ** The histogram of departures and arrivals by hour *)

Lemma hour_range (t : Z) : (0 <= Pd.hour t < 24)%Z.
Proof. unfold Pd.hour. apply Z.mod_pos_bound. lia. Qed.

Lemma hours_in_range {F : Type} (g : F -> Z) (l : list F) :
  Forall (fun v => (0 <= v < 24)%Z) (map (fun f => Pd.hour (g f)) l).
Proof. induction l; simpl; constructor; auto using hour_range. Qed.

Lemma length_filter_map {F : Type} (g : F -> Z) (p : Z -> bool) (l : list F) :
  List.length (filter p (map g l)) = List.length (filter (fun f => p (g f)) l).
Proof.
  induction l as [|x l IH]; simpl; [reflexivity|].
  destruct (p (g x)); simpl; now rewrite IH.
Qed.

Lemma filter_twice {F : Type} (p q : F -> bool) (l : list F) :
  filter q (filter p l) = filter (fun f => p f && q f) l.
Proof.
  induction l as [|x l IH]; simpl; [reflexivity|].
  destruct (p x); simpl; [destruct (q x)|]; now rewrite IH.
Qed.

Lemma list_sum_cons (x : nat) (l : list nat) : list_sum (x :: l) = (x + list_sum l)%nat.
Proof. reflexivity. Qed.

(** The heights of the bars add up over the values. *)
Lemma np_histogram_sum_cons (v : Z) (a : list Z) (bins : list Z) :
  list_sum (np_histogram (v :: a) bins)
  = (list_sum (np_histogram [v] bins) + list_sum (np_histogram a bins))%nat.
Proof.
  induction bins as [|lo bins IH]; [reflexivity|].
  destruct bins as [|hi rest]; [reflexivity|].
  change (np_histogram (v :: a) (lo :: hi :: rest))
    with (List.length
            (filter (fun x => (lo <=? x)%Z &&
                              (if match rest with [] => true | _ :: _ => false end
                               then (x <=? hi)%Z else (x <? hi)%Z)) (v :: a))
          :: np_histogram (v :: a) (hi :: rest)).
  change (np_histogram [v] (lo :: hi :: rest))
    with (List.length
            (filter (fun x => (lo <=? x)%Z &&
                              (if match rest with [] => true | _ :: _ => false end
                               then (x <=? hi)%Z else (x <? hi)%Z)) [v])
          :: np_histogram [v] (hi :: rest)).
  change (np_histogram a (lo :: hi :: rest))
    with (List.length
            (filter (fun x => (lo <=? x)%Z &&
                              (if match rest with [] => true | _ :: _ => false end
                               then (x <=? hi)%Z else (x <? hi)%Z)) a)
          :: np_histogram a (hi :: rest)).
  rewrite !list_sum_cons, IH. cbn [filter].
  destruct ((lo <=? v)%Z &&
            (if match rest with [] => true | _ :: _ => false end
             then (v <=? hi)%Z else (v <? hi)%Z)); cbn [List.length]; lia.
Qed.

(** An hour of the day falls into exactly one of the bins of
    [range(0, 25)]. *)
Lemma hour_in_one_bin (v : Z) :
  (0 <= v < 24)%Z -> list_sum (np_histogram [v] (py_range 0 25)) = 1%nat.
Proof.
  intros H.
  assert (E : v = Z.of_nat (Z.to_nat v)) by lia.
  assert (Hk : (Z.to_nat v < 24)%nat) by lia.
  rewrite E. clear E H. revert Hk. generalize (Z.to_nat v). intros k Hk.
  do 24 (destruct k as [|k]; [reflexivity|]).
  lia.
Qed.

Lemma np_histogram_hours_total (a : list Z) :
  Forall (fun v => (0 <= v < 24)%Z) a ->
  list_sum (np_histogram a (py_range 0 25)) = List.length a.
Proof.
  induction 1 as [|v a Hv _ IH]; [reflexivity|].
  rewrite np_histogram_sum_cons, IH, hour_in_one_bin by exact Hv. reflexivity.
Qed.

Lemma unit_bin (lo v : Z) : ((lo <=? v) && (v <? lo + 1))%Z = (v =? lo)%Z.
Proof.
  destruct (Z.leb_spec lo v), (Z.ltb_spec v (lo + 1)), (Z.eqb_spec v lo);
    try reflexivity; lia.
Qed.

Lemma last_bin (v : Z) : (v < 24)%Z -> ((23 <=? v) && (v <=? 24))%Z = (v =? 23)%Z.
Proof.
  intros H. destruct (Z.leb_spec 23 v), (Z.leb_spec v 24), (Z.eqb_spec v 23);
    try reflexivity; lia.
Qed.

(** Each hour has a bin of its own: the bar of index [h] counts the values
    equal to [h]. *)
Lemma np_histogram_hours_bar (a : list Z) (h : nat) :
  Forall (fun v => (0 <= v < 24)%Z) a -> (h < 24)%nat ->
  List.length (np_histogram a (py_range 0 25)) = 24%nat /\
  nth h (np_histogram a (py_range 0 25)) 0%nat
  = List.length (filter (fun v => (v =? Z.of_nat h)%Z) a).
Proof.
  intros Ha Hh. split; [reflexivity|].
  rewrite Forall_forall in Ha.
  set (bins := py_range 0 25). vm_compute in bins. subst bins.
  do 23 (destruct h as [|h];
         [cbn [np_histogram nth]; f_equal; apply filter_ext_in;
          intros v Hv;
          match goal with
          | |- ((?lo <=? _)%Z && _) = _ => exact (unit_bin lo v)
          end|]).
  destruct h as [|h]; [|lia].
  cbn [np_histogram nth]. f_equal. apply filter_ext_in.
  intros v Hv. apply last_bin. now apply Ha.
Qed.

(** X13.  Each panel of the histogram has 24 bars, one per hour of the
    day: with the bin edges [range(0, 25)] the bar of hour [h] counts
    exactly the flights of the panel whose time falls in hour [h] (hour 23
    has a bin of its own, the last one, closed on the right). *)
Theorem histogram_bar_per_hour :
  forall (df : list Flight) (airport : string) (h : nat),
    (h < 24)%nat ->
    let p := plot_histogram_departures_arrivals_planned_actual df airport in
    let at_hour (g : Flight -> Z) (f : Flight) := (Pd.hour (g f) =? Z.of_nat h)%Z in
    (List.length (departures_filed p) = 24 /\ List.length (departures_actual p) = 24 /\
     List.length (arrivals_filed p) = 24 /\ List.length (arrivals_actual p) = 24)%nat /\
    nth h (departures_filed p) 0%nat
    = List.length (filter (fun f => String.eqb (ADEP f) airport
                                    && at_hour FILED_OFF_BLOCK_TIME f) df) /\
    nth h (departures_actual p) 0%nat
    = List.length (filter (fun f => String.eqb (ADEP f) airport
                                    && at_hour ACTUAL_OFF_BLOCK_TIME f) df) /\
    nth h (arrivals_filed p) 0%nat
    = List.length (filter (fun f => String.eqb (ADES f) airport
                                    && at_hour FILED_ARRIVAL_TIME f) df) /\
    nth h (arrivals_actual p) 0%nat
    = List.length (filter (fun f => String.eqb (ADES f) airport
                                    && at_hour ACTUAL_ARRIVAL_TIME f) df).
Proof.
  intros df airport h Hh p at_hour.
  assert (B : forall (g : Flight -> Z) (sel : Flight -> bool),
             nth h (np_histogram (map (fun f => Pd.hour (g f)) (filter sel df))
                                 (py_range 0 25)) 0%nat
             = List.length (filter (fun f => sel f && at_hour g f) df)).
  { intros g sel.
    destruct (np_histogram_hours_bar _ h (hours_in_range g (filter sel df)) Hh) as [_ ->].
    rewrite (length_filter_map (fun f => Pd.hour (g f))).
    now rewrite filter_twice. }
  split; [repeat split|].
  unfold p, plot_histogram_departures_arrivals_planned_actual; cbn [departures_filed
    departures_actual arrivals_filed arrivals_actual].
  rewrite !B. repeat split.
Qed.

Lemma histogram_bar_per_hour_witness :
  nth 23 (departures_filed
            (plot_histogram_departures_arrivals_planned_actual flights_sample "LFPG"))
      0%nat = 1%nat /\
  nth 0 (arrivals_filed
           (plot_histogram_departures_arrivals_planned_actual flights_sample "LFPG"))
      0%nat = 1%nat.
Proof.
  split.
  - destruct (histogram_bar_per_hour flights_sample "LFPG" 23 ltac:(lia))
      as (_ & H & _).
    rewrite H. reflexivity.
  - destruct (histogram_bar_per_hour flights_sample "LFPG" 0 ltac:(lia))
      as (_ & _ & _ & H & _).
    rewrite H. reflexivity.
Defined.

(** X14.  No flight of the airport is lost or counted twice: in each
    panel the bars of the "Filed" series and those of the "Actual" series
    both add up to the number of flights selected (departures: [ADEP] is
    the airport; arrivals: [ADES] is the airport), whatever the times; a
    flight that departs from and arrives at the airport counts in both
    panels, and one that does neither counts in none. *)
Theorem histogram_totals :
  forall (df : list Flight) (airport : string),
    let p := plot_histogram_departures_arrivals_planned_actual df airport in
    let departures := filter (fun f => String.eqb (ADEP f) airport) df in
    let arrivals := filter (fun f => String.eqb (ADES f) airport) df in
    list_sum (departures_filed p) = List.length departures /\
    list_sum (departures_actual p) = List.length departures /\
    list_sum (arrivals_filed p) = List.length arrivals /\
    list_sum (arrivals_actual p) = List.length arrivals /\
    forall f : Flight,
      let p' := plot_histogram_departures_arrivals_planned_actual (f :: df) airport in
      list_sum (departures_filed p')
      = ((if String.eqb (ADEP f) airport then 1 else 0) + list_sum (departures_filed p))%nat /\
      list_sum (arrivals_filed p')
      = ((if String.eqb (ADES f) airport then 1 else 0) + list_sum (arrivals_filed p))%nat.
Proof.
  intros df airport.
  assert (T : forall (g : Flight -> Z) (sel : Flight -> bool) (l : list Flight),
             list_sum (np_histogram (map (fun f => Pd.hour (g f)) (filter sel l))
                                    (py_range 0 25))
             = List.length (filter sel l)).
  { intros g sel l. rewrite np_histogram_hours_total by apply hours_in_range.
    apply length_map. }
  unfold plot_histogram_departures_arrivals_planned_actual;
    cbn [departures_filed departures_actual arrivals_filed arrivals_actual].
  rewrite !T. do 4 (split; [reflexivity|]).
  intros f. rewrite !T. cbn [filter].
  destruct (String.eqb (ADEP f) airport), (String.eqb (ADES f) airport);
    split; reflexivity.
Qed.

(** ** Rows that do not belong to the feature *)

Lemma filter_none {F : Type} (p : F -> bool) (l : list F) :
  (forall r, In r l -> p r = false) -> filter p l = [].
Proof.
  induction l as [|x l IH]; simpl; intros H; [reflexivity|].
  rewrite (H x) by now left. apply IH. intros r Hr. apply H. now right.
Qed.



Lemma too_few_points_raises_value tr tb av (df : list Row) (ax : option Axes) :
  (List.length df < 3)%nat ->
  exists msg, plot_airspace tr tb av df EmptyString ax = Raise (Py.ValueError msg).
Proof.
  intros C. unfold plot_airspace. rewrite sort_values_length.
  change (airspace_subset df EmptyString) with df.
  destruct (Nat.ltb_spec (List.length df) 3) as [_|D]; [|lia].
  eexists. reflexivity.
Qed.

(** X16.  With an airspace id, [plot_airspace] builds the polygon from
    the rows of that airspace alone: rows of other airspaces change
    nothing.  Without one (the empty string) it takes every row of the
    frame, whatever airspace each belongs to, so the guard counts all rows:
    the call raises exactly when the whole frame has fewer than three. *)
Theorem airspace_rows_selected :
  forall tr tb av (df : list Row) (ax : option Axes),
    (forall s others,
        Py.truthy s = true ->
        (forall r, In r others -> String.eqb (Ident r) s = false) ->
        plot_airspace tr tb av (df ++ others) s ax = plot_airspace tr tb av df s ax) /\
    airspace_subset df EmptyString = df /\
    Py.raises (plot_airspace tr tb av df EmptyString ax) = (List.length df <? 3)%nat.
Proof.
  intros tr tb av df ax. split; [|split].
  - intros s others Hs H. unfold plot_airspace, airspace_subset. rewrite Hs.
    now rewrite filter_app, (filter_none _ others H), app_nil_r.
  - reflexivity.
  - destruct (Nat.ltb_spec (List.length df) 3) as [C|C].
    + destruct too_few_points_raises_value with (1 := C) (tr := tr) (tb := tb) (av := av)
        (ax := ax) as [msg ->]. reflexivity.
    + destruct (plot_airspace_relabels tr tb av df EmptyString ax C) as [a ->]. reflexivity.
Qed.

Lemma airspace_rows_selected_witness :
  plot_airspace plain_transform plain_bounds no_autoscale (triangle_a ++ triangle_b)
                "A" None
  = plot_airspace plain_transform plain_bounds no_autoscale triangle_a "A" None /\
  Py.raises (plot_airspace plain_transform plain_bounds no_autoscale mixed_airspaces
                           EmptyString None) = false.
Proof.
  destruct (airspace_rows_selected plain_transform plain_bounds no_autoscale
              triangle_a None) as (H & _ & _).
  split.
  - apply H; [reflexivity|].
    intros r [<-|[<-|[<-|[]]]]; reflexivity.
  - destruct (airspace_rows_selected plain_transform plain_bounds no_autoscale
                mixed_airspaces None) as (_ & _ & ->). reflexivity.
Defined.
